(** * Hidebar: the chat session controller and the voice capture loop

    A shallow embedding of the stateful core of [Hidebar.py]
    ([HidebarApp.send_message], [get_ollama_response],
    [load_available_models], [listen_continuously] and
    [process_voice_input]) and the properties of the streaming chat
    session and of the voice retry loop.

    Python values are modelled as follows.
    - [str] is a list of Unicode code points, so that [len] and
      [str.strip] count and classify characters as Python does.
    - The value returned by [json.loads] is a [json] tree; a JSON object
      keeps its members in document order and a lookup takes the last
      member with the key, as the dict built by [json.loads] does.
    - The object [self] is the record [App]; methods are computations in
      a state-and-exception monad over it.
    - What the world answers (the HTTP server, the microphone, the
      speech service) is an explicit argument of the method that asks. *)

From Stdlib Require Import List NArith ZArith Bool Lia String Ascii.
From Stdlib Require Import PrimFloat DecimalString.
Import ListNotations.

(** ** Python strings *)

Module Str.

Definition char := N.
Definition str := list char.

(** An ASCII literal of the source as a [str]. *)
Definition lit (s : string) : str :=
  List.map N_of_ascii (list_ascii_of_string s).

(** [bool(s)] for a string: non-empty. *)
Definition truthy (s : str) : bool :=
  match s with [] => false | _ :: _ => true end.

(** [c.isspace()]: the code points Python's [str.strip()] removes. *)
Definition isspace (c : char) : bool :=
  (((9 <=? c) && (c <=? 13)) || ((28 <=? c) && (c <=? 32))
   || (c =? 133) || (c =? 160) || (c =? 5760)
   || ((8192 <=? c) && (c <=? 8202))
   || (c =? 8232) || (c =? 8233) || (c =? 8239) || (c =? 8287)
   || (c =? 12288))%N.

Fixpoint lstrip (s : str) : str :=
  match s with
  | [] => []
  | c :: s' => if isspace c then lstrip s' else s
  end.

Definition rstrip (s : str) : str := rev (lstrip (rev s)).

(** [s.strip()] *)
Definition strip (s : str) : str := lstrip (rstrip s).

(** [len(s)] *)
Definition len (s : str) : nat := List.length s.

(** [s[:n]] for a non-negative [n]. *)
Definition prefix (n : nat) (s : str) : str := firstn n s.

(** [str(z)] for an integer. *)
Definition of_Z (z : Z) : str := lit (NilZero.string_of_int (Z.to_int z)).

Definition eqb (a b : str) : bool :=
  if list_eq_dec N.eq_dec a b then true else false.

Definition newline : char := 10%N.

End Str.

Import Str.

(** ** JSON values, as [json.loads] returns them *)

#[local] Set Warnings "-register-all".
Inductive json :=
| JNull
| JBool (b : bool)
| JInt (z : Z)
| JFloat (f : float)
| JStr (s : str)
| JArr (items : list json)
| JObj (members : list (str * json)).

(** Truth value of a Python object ([if content:], [if ...get("done")]). *)
Definition truthy (v : json) : bool :=
  match v with
  | JNull => false
  | JBool b => b
  | JInt z => negb (z =? 0)%Z
  | JFloat f => negb (PrimFloat.eqb f 0%float)
  | JStr s => Str.truthy s
  | JArr items => match items with [] => false | _ => true end
  | JObj members => match members with [] => false | _ => true end
  end.

(** [type(v).__name__] *)
Definition type_name (v : json) : str :=
  match v with
  | JNull => lit "NoneType"
  | JBool _ => lit "bool"
  | JInt _ => lit "int"
  | JFloat _ => lit "float"
  | JStr _ => lit "str"
  | JArr _ => lit "list"
  | JObj _ => lit "dict"
  end.

(** Lookup in the dict built from the members of a JSON object: a repeated
    key keeps its last value. *)
Fixpoint dict_lookup (members : list (str * json)) (key : str) : option json :=
  match members with
  | [] => None
  | (k, v) :: rest =>
      match dict_lookup rest key with
      | Some v' => Some v'
      | None => if Str.eqb k key then Some v else None
      end
  end.

(** ** Exceptions *)

Inductive ExnKind :=
| Timeout              (* requests.exceptions.Timeout, e.g. ReadTimeout *)
| ConnectTimeout       (* requests.exceptions.ConnectTimeout: a subclass of
                          both ConnectionError and Timeout *)
| ConnectionError      (* requests.exceptions.ConnectionError *)
| JSONDecodeError      (* json.JSONDecodeError *)
| UnicodeDecodeError
| AttributeError
| TypeError
| WaitTimeoutError     (* sr.WaitTimeoutError *)
| UnknownValueError    (* sr.UnknownValueError *)
| RequestError         (* sr.RequestError *)
| OtherException.

(** [isinstance(e, requests.exceptions.Timeout)] *)
Definition is_Timeout (k : ExnKind) : bool :=
  match k with Timeout | ConnectTimeout => true | _ => false end.

(** [isinstance(e, requests.exceptions.ConnectionError)] *)
Definition is_ConnectionError (k : ExnKind) : bool :=
  match k with ConnectionError | ConnectTimeout => true | _ => false end.

Record Exn := mkExn { kind : ExnKind; exn_str : str (* str(e) *) }.

(** ** The state-and-exception monad of a method body *)

Inductive Res (A : Type) :=
| Ok (a : A)
| Raised (e : Exn).
Arguments Ok {A} a.
Arguments Raised {A} e.

Section Monad.
Variable S : Type.

Definition M (A : Type) := S -> Res A * S.

Definition ret {A} (a : A) : M A := fun st => (Ok a, st).

Definition raise {A} (e : Exn) : M A := fun st => (Raised e, st).

Definition bind {A B} (m : M A) (f : A -> M B) : M B :=
  fun st =>
    match m st with
    | (Ok a, st') => f a st'
    | (Raised e, st') => (Raised e, st')
    end.

(** [try: m except <h>]: the state reached when the exception was raised
    is the one the handler starts from. *)
Definition try_except {A} (m : M A) (h : Exn -> M A) : M A :=
  fun st =>
    match m st with
    | (Ok a, st') => (Ok a, st')
    | (Raised e, st') => h e st'
    end.

Definition modify (f : S -> S) : M unit := fun st => (Ok tt, f st).

Definition gets {A} (f : S -> A) : M A := fun st => (Ok (f st), st).

(** The state a computation leaves. *)
Definition exec {A} (m : M A) (st : S) : S := snd (m st).

End Monad.

Arguments ret {S A} a.
Arguments raise {S A} e.
Arguments bind {S A B} m f.
Arguments try_except {S A} m h.
Arguments modify {S} f.
Arguments gets {S A} f.
Arguments exec {S A} m st.

Declare Scope py_scope.
Delimit Scope py_scope with py.
Notation "x <- m ;; k" := (bind m (fun x => k))
  (at level 61, m at next level, right associativity) : py_scope.
Notation "m ;; k" := (bind m (fun _ => k))
  (at level 61, right associativity) : py_scope.
Open Scope py_scope.

(** ** The application object *)

Inductive Role := User | Assistant | System.

(** An entry of [self.conversation_history]:
    [{"role": ..., "content": ...}]. *)
Record Turn := mkTurn { role : Role; content : str }.

(** Calls on the widgets, made directly on the UI thread or scheduled
    from a background thread with [self.root.after(0, ...)]; [ui] of
    [App] lists them in the order they were issued. *)
Inductive UiCall :=
| AddMessage (sender : Role) (message : str)
| UpdateStatus (message : str)
| StartStreamingMessage
| AppendToStreaming (c : str)
| FinishStreamingMessage
| ModelDropdownConfig (values : list str)
| ModelVarSetFromModel
| ProcessVoiceInput (t : str)
| StatusOfUnboundError.
(** [StatusOfUnboundError] is the callback
    [lambda: self.update_status(f"Error: {str(e)}")] that
    [load_available_models] schedules from [except Exception as e]: the
    name [e] is unbound once the except block is left, so the callback
    raises [NameError] when Tk runs it and sets no status. *)

Record App := mkApp {
  model : str;                        (* self.model *)
  conversation_history : list Turn;   (* self.conversation_history *)
  input_field : str;                  (* text held by self.input_field *)
  running : nat;                      (* get_ollama_response threads started
                                         and not yet returned *)
  ui : list UiCall
}.

Definition set_model (m : str) (a : App) : App :=
  mkApp m (conversation_history a) (input_field a) (running a) (ui a).
Definition set_history (h : list Turn) (a : App) : App :=
  mkApp (model a) h (input_field a) (running a) (ui a).
Definition set_input (s : str) (a : App) : App :=
  mkApp (model a) (conversation_history a) s (running a) (ui a).
Definition set_running (n : nat) (a : App) : App :=
  mkApp (model a) (conversation_history a) (input_field a) n (ui a).
Definition set_ui (u : list UiCall) (a : App) : App :=
  mkApp (model a) (conversation_history a) (input_field a) (running a) u.

(** The specification's [inFlight]: a streaming request is outstanding.
    The source keeps no such flag; it is read off the worker threads. *)
Definition inFlight (a : App) : bool := negb (Nat.eqb (running a) 0).

Module Widgets.

(** [self.input_field.get("1.0", tk.END)]: a Tk text widget returns its
    text followed by a newline. *)
Definition input_field_get : M App str :=
  gets (fun a => input_field a ++ [newline]).

(** [self.input_field.delete("1.0", tk.END)] *)
Definition input_field_delete : M App unit := modify (set_input []).

(** [self.input_field.insert("1.0", text)] *)
Definition input_field_insert (text : str) : M App unit :=
  modify (fun a => set_input (text ++ input_field a) a).

Definition call (c : UiCall) : M App unit :=
  modify (fun a => set_ui (ui a ++ [c]) a).

Definition add_message (sender : Role) (message : str) : M App unit :=
  call (AddMessage sender message).

Definition update_status (message : str) : M App unit :=
  call (UpdateStatus message).

(** [self.root.after(0, lambda: c)] *)
Definition root_after (c : UiCall) : M App unit := call c.

End Widgets.

Import Widgets.

(** [self.conversation_history.append(t)] *)
Definition history_append (t : Turn) : M App unit :=
  modify (fun a => set_history (conversation_history a ++ [t]) a).

(** [threading.Thread(target=self.get_ollama_response, ...).start()] *)
Definition thread_start : M App unit :=
  modify (fun a => set_running (S (running a)) a).

(** The worker thread's function has returned. *)
Definition thread_exit : M App unit :=
  modify (fun a => set_running (Nat.pred (running a)) a).

(** ** [send_message] *)

(** Both paths of [send_message] return [None]; the tag tells which one
    was taken: [Rejected] is the early [return] on an empty message. *)
Inductive Submit := Rejected | Submitted.

Definition send_message : M App Submit :=
  raw <- input_field_get ;;
  let message := strip raw in
  if negb (Str.truthy message) then ret Rejected
  else
    input_field_delete ;;
    add_message User message ;;
    history_append (mkTurn User message) ;;
    update_status (lit "Thinking...") ;;
    thread_start ;;
    ret Submitted.

(** The specification's [submitUserText(text)]: the text is what the
    input field holds when [send_message] runs. *)
Definition submitUserText (text : str) : M App Submit :=
  modify (set_input text) ;; send_message.

(** ** The streaming response of [/api/chat] *)

(** A line yielded by [response.iter_lines()], by what
    [json.loads(line.decode('utf-8'))] does with it. *)
Inductive WireLine :=
| Blank                       (* b'': [if line:] is false *)
| NotUtf8 (msg : str)         (* line.decode raises UnicodeDecodeError *)
| NotJson (msg : str)         (* json.loads raises json.JSONDecodeError *)
| Json (v : json)             (* json.loads returns v *)
| LoadsRaises (e : Exn).      (* json.loads raises something else: ValueError
                                 for an integer literal beyond the digit
                                 limit, RecursionError for deep nesting *)

(** The response object of [requests.post(..., stream=True)]:
    [iter_lines()] yields [lines] and then is exhausted, or raises
    [lines_end] (a read timeout, a connection reset). *)
Record Response := mkResponse {
  status_code : Z;
  text : str;
  lines : list WireLine;
  lines_end : option Exn
}.

Inductive PostOutcome :=
| PostRaises (e : Exn)
| PostReturns (response : Response).

Definition requests_post (o : PostOutcome) : M App Response :=
  match o with
  | PostRaises e => raise e
  | PostReturns response => ret response
  end.

(** [json.loads(line.decode('utf-8'))] for a non-empty line. *)
Definition loads_decode (line : WireLine) : M App json :=
  match line with
  | Blank => raise (mkExn JSONDecodeError (lit "Expecting value"))
  | NotUtf8 msg => raise (mkExn UnicodeDecodeError msg)
  | NotJson msg => raise (mkExn JSONDecodeError msg)
  | Json v => ret v
  | LoadsRaises e => raise e
  end.

(** [d.get(key, default)]: only a dict has the method. *)
Definition py_get (d : json) (key : str) (default : json) : M App json :=
  match d with
  | JObj members =>
      match dict_lookup members key with
      | Some v => ret v
      | None => ret default
      end
  | _ => raise (mkExn AttributeError
                  (lit "'" ++ type_name d ++ lit "' object has no attribute 'get'"))
  end.

(** [full_response += content] *)
Definition iadd (full_response : str) (content : json) : M App str :=
  match content with
  | JStr c => ret (full_response ++ c)
  | _ => raise (mkExn TypeError
                  (lit "can only concatenate str (not " ++ [34%N]
                   ++ type_name content ++ [34%N] ++ lit ") to str"))
  end.

(** The text of a string value, for the default argument [c=content] of
    the scheduled [append_to_streaming]. *)
Definition str_of (v : json) : str :=
  match v with JStr s => s | _ => [] end.

Inductive Flow := Continue | Break.

(** The body of [for line in response.iter_lines():], from the value of
    [full_response] before the line to its value after it. *)
Definition loop_body (line : WireLine) (full_response : str)
  : M App (Flow * str) :=
  match line with
  | Blank => ret (Continue, full_response)
  | _ =>
      try_except
        (json_data <- loads_decode line ;;
         message <- py_get json_data (lit "message") (JObj []) ;;
         content <- py_get message (lit "content") (JStr []) ;;
         full_response' <-
           (if truthy content then
              full_response' <- iadd full_response content ;;
              root_after (AppendToStreaming (str_of content)) ;;
              ret full_response'
            else ret full_response) ;;
         done <- py_get json_data (lit "done") (JBool false) ;;
         if truthy done then ret (Break, full_response')
         else ret (Continue, full_response'))
        (fun e =>
           match kind e with
           | JSONDecodeError => ret (Continue, full_response)
           | _ => raise e
           end)
  end.

(** The [for] loop; it returns the final [full_response]. *)
Fixpoint for_lines (lines : list WireLine) (lines_end : option Exn)
    (full_response : str) : M App str :=
  match lines with
  | [] =>
      match lines_end with
      | None => ret full_response
      | Some e => raise e
      end
  | line :: rest =>
      r <- loop_body line full_response ;;
      match r with
      | (Continue, full_response') => for_lines rest lines_end full_response'
      | (Break, full_response') => ret full_response'
      end
  end.

Definition msg_no_response : str := lit "No response received from model".
Definition msg_timeout : str :=
  lit "Request timed out. The model might be too slow or not responding.".
Definition msg_unreachable : str :=
  lit "Cannot connect to Ollama. Make sure it's running.".

(** ** [get_ollama_response] *)

Definition get_ollama_response (user_message : str) (o : PostOutcome)
  : M App unit :=
  try_except
    (response <- requests_post o ;;
     if (status_code response =? 200)%Z then
       let full_response := [] in
       root_after StartStreamingMessage ;;
       full_response <- for_lines (lines response) (lines_end response)
                          full_response ;;
       if Str.truthy full_response then
         history_append (mkTurn Assistant full_response) ;;
         root_after FinishStreamingMessage ;;
         root_after (UpdateStatus (lit "Ready"))
       else
         let error_msg := msg_no_response in
         root_after (UpdateStatus error_msg) ;;
         root_after (AddMessage System error_msg)
     else
       let error_msg :=
         lit "Error: " ++ of_Z (status_code response) ++ lit " - "
         ++ prefix 200 (text response) in
       root_after (UpdateStatus error_msg) ;;
       root_after (AddMessage System error_msg))
    (fun e =>
       if is_Timeout (kind e) then
         let error_msg := msg_timeout in
         root_after (UpdateStatus error_msg) ;;
         root_after (AddMessage System error_msg)
       else if is_ConnectionError (kind e) then
         let error_msg := msg_unreachable in
         root_after (UpdateStatus error_msg) ;;
         root_after (AddMessage System error_msg)
       else
         let error_msg := lit "Error: " ++ exn_str e in
         root_after (UpdateStatus error_msg) ;;
         root_after (AddMessage System error_msg)).

(** The worker thread started by [send_message]: it runs
    [get_ollama_response] and ends. *)
Definition worker (user_message : str) (o : PostOutcome) : M App unit :=
  get_ollama_response user_message o ;; thread_exit.

(** ** [load_available_models] and [on_model_change] *)

(** The answer to [GET /api/tags]. [TagsReturns code models] is a response
    with that status whose body, when the status is 200, gives the list
    [models] of the comprehension
    [[model["name"] for model in models_data.get("models", [])]];
    [TagsRaises] is [requests.get], [response.json()] or the comprehension
    raising, all of which happen before [self] is touched. *)
Inductive TagsOutcome :=
| TagsRaises (e : Exn)
| TagsReturns (status_code : Z) (models : list str).

Definition mem (x : str) (l : list str) : bool := existsb (Str.eqb x) l.

Definition load_available_models (o : TagsOutcome) : M App unit :=
  try_except
    (match o with
     | TagsRaises e => raise e
     | TagsReturns status_code models =>
         if (status_code =? 200)%Z then
           match models with
           | _ :: _ =>
               root_after (ModelDropdownConfig models) ;;
               current <- gets model ;;
               (if negb (mem current models) then
                  modify (set_model (hd [] models)) ;;
                  root_after ModelVarSetFromModel
                else ret tt) ;;
               root_after (UpdateStatus (lit "Connected to Ollama"))
           | [] =>
               root_after
                 (UpdateStatus (lit "No models found. Please pull a model first."))
           end
         else root_after (UpdateStatus (lit "Ollama returned an error"))
     end)
    (fun e =>
       if is_ConnectionError (kind e) then
         root_after
           (UpdateStatus
              (lit "Cannot connect to Ollama. Make sure it's running on localhost:11434"))
       else root_after StatusOfUnboundError).

(** [on_model_change]; [selected] is [self.model_var.get()]. *)
Definition on_model_change (selected : str) (o : TagsOutcome) : M App unit :=
  modify (set_model selected) ;;
  current <- gets model ;;
  update_status (lit "Model changed to: " ++ current) ;;
  load_available_models o.

(** ** [process_voice_input] *)

Definition microphone_sign : char := 127908%N.   (* U+1F3A4 *)
Definition check_mark : char := 9989%N.          (* U+2705 *)
Definition magnifier : char := 128269%N.         (* U+1F50D *)

Definition process_voice_input (text : str) : M App unit :=
  let text := strip text in
  if negb (Str.truthy text) || (len text <? 2) then ret tt
  else
    input_field_delete ;;
    input_field_insert text ;;
    add_message User (microphone_sign :: lit " " ++ text) ;;
    update_status (check_mark :: lit " Voice captured - Sending...") ;;
    _ <- send_message ;;
    ret tt.

(** ** [listen_continuously] *)

(** The locals of the voice thread and what it did to the recognizer and
    to the UI queue. *)
Record Voice := mkVoice {
  consecutive_errors : nat;
  recalibrations : nat;       (* adjust_for_ambient_noise calls of the loop
                                 that returned *)
  posted : list UiCall        (* callbacks scheduled with root.after *)
}.

Definition max_errors : nat := 5.

Definition set_errors (n : nat) (v : Voice) : Voice :=
  mkVoice n (recalibrations v) (posted v).

Definition post (c : UiCall) : M Voice unit :=
  modify (fun v => mkVoice (consecutive_errors v) (recalibrations v)
                     (posted v ++ [c])).

(** What the microphone and the speech service do in one pass of the
    [while] loop. *)
Record Attempt := mkAttempt {
  listen : option Exn;             (* [None]: the [with] block returns the
                                      audio; [Some e]: it raises [e] *)
  recognize_google : Res str;      (* read once the audio is there *)
  is_listening : bool;             (* self.is_listening when the last
                                      handler tests it *)
  adjust_for_ambient_noise : option Exn
                                   (* [None]: the recalibration, if it is
                                      tried, returns *)
}.

Definition do_listen (a : Attempt) : M Voice unit :=
  match listen a with None => ret tt | Some e => raise e end.

Definition do_recognize (a : Attempt) : M Voice str :=
  match recognize_google a with Ok t => ret t | Raised e => raise e end.

(** [with self.microphone as source:
       self.recognizer.adjust_for_ambient_noise(source, duration=0.5)] *)
Definition do_recalibrate (a : Attempt) : M Voice unit :=
  match adjust_for_ambient_noise a with
  | None => modify (fun v => mkVoice (consecutive_errors v)
                               (S (recalibrations v)) (posted v))
  | Some e => raise e
  end.

Definition increment_errors : M Voice unit :=
  modify (fun v => set_errors (consecutive_errors v + 1) v).

Definition cap_reached : M Voice bool :=
  gets (fun v => max_errors <=? consecutive_errors v).

Definition msg_processing : str := magnifier :: lit " Processing speech...".

(** The body of [while self.is_listening:]. The calls to [time.sleep]
    change nothing in the state and are left out. *)
Definition listen_body (a : Attempt) : M Voice Flow :=
  try_except
    (do_listen a ;;
     post (UpdateStatus msg_processing) ;;
     try_except
       (text <- do_recognize a ;;
        if Str.truthy text && (0 <? len (strip text)) then
          modify (set_errors 0) ;;
          post (ProcessVoiceInput text) ;;
          ret Continue
        else ret Continue)
       (fun e =>
          match kind e with
          | UnknownValueError =>
              increment_errors ;;
              full <- cap_reached ;;
              (if full then
                 post (UpdateStatus
                         (microphone_sign
                            :: lit " Listening... (speak louder or clearer)")) ;;
                 modify (set_errors 0)
               else ret tt) ;;
              ret Continue
          | RequestError =>
              increment_errors ;;
              let error_msg := lit "Speech API error: " ++ prefix 50 (exn_str e) in
              post (UpdateStatus error_msg) ;;
              full <- cap_reached ;;
              (if full then
                 post (UpdateStatus
                         (microphone_sign
                            :: lit " Listening... (check internet connection)")) ;;
                 modify (set_errors 0)
               else ret tt) ;;
              ret Continue
          | _ => raise e
          end))
    (fun e =>
       match kind e with
       | WaitTimeoutError => ret Continue
       | _ =>
           if is_listening a then
             increment_errors ;;
             let error_msg := lit "Error: " ++ prefix 40 (exn_str e) in
             post (UpdateStatus error_msg) ;;
             full <- cap_reached ;;
             (if full then
                try_except
                  (do_recalibrate a ;;
                   modify (set_errors 0) ;;
                   post (UpdateStatus
                           (microphone_sign
                              :: lit " Recalibrated - Listening...")))
                  (fun _ => ret tt)
              else ret tt) ;;
             ret Continue
           else ret Break
       end).

(** The [while] loop over the passes whose test [self.is_listening] held;
    the list ends where the test fails. *)
Fixpoint while_listening (attempts : list Attempt) : M Voice unit :=
  match attempts with
  | [] => ret tt
  | a :: rest =>
      f <- listen_body a ;;
      match f with
      | Continue => while_listening rest
      | Break => ret tt
      end
  end.

Definition listen_continuously (attempts : list Attempt) : M Voice unit :=
  modify (set_errors 0) ;;
  while_listening attempts.

(** The voice thread as started by [start_listening]. *)
Definition voice_start : Voice := mkVoice 0 0 [].

(** ** The UI thread runs what was scheduled *)

(** A scheduled callback runs on the UI thread: [process_voice_input]
    acts on [self]; the others only draw. *)
Definition run_call (c : UiCall) : M App unit :=
  match c with
  | ProcessVoiceInput t => process_voice_input t
  | _ => call c
  end.

Fixpoint run_calls (cs : list UiCall) : M App unit :=
  match cs with
  | [] => ret tt
  | c :: rest => run_call c ;; run_calls rest
  end.

(** One utterance that the speech service recognised as [text], from the
    voice thread's pass to the UI thread running what the pass scheduled. *)
Definition heard (text : str) : Attempt := mkAttempt None (Ok text) true None.

Definition utterance (v : Voice) (text : str) : M App unit :=
  run_calls (skipn (List.length (posted v))
               (posted (exec (listen_body (heard text)) v))).

(** ** Everything that acts on [self] *)

Inductive Action :=
| TypeText (s : str)                       (* the user edits the input field *)
| SendMessage                              (* Enter, or the Send button *)
| VoiceInput (t : str)                     (* a scheduled process_voice_input *)
| WorkerReturns (user_message : str) (o : PostOutcome)
| LoadModels (o : TagsOutcome)
| ModelChange (selected : str) (o : TagsOutcome).

Definition run (act : Action) : M App unit :=
  match act with
  | TypeText s => modify (set_input s)
  | SendMessage => _ <- send_message ;; ret tt
  | VoiceInput t => process_voice_input t
  | WorkerReturns user_message o => worker user_message o
  | LoadModels o => load_available_models o
  | ModelChange selected o => on_model_change selected o
  end.

(** A fresh session: the default model of [__init__], an empty history
    and input field, no worker, and nothing issued to the widgets yet. *)
Definition idle : App := mkApp (lit "llama3.2:latest") [] [] 0 [].

(** What the loop over the lines computes and schedules, whatever the
    state of [self]: the final [full_response] (or the exception that
    leaves the loop) and the calls scheduled on the way. *)
Definition loop_run (ls : list WireLine) (e : option Exn) (full_response : str)
  : Res str * list UiCall :=
  let '(r, a) := for_lines ls e full_response idle in (r, ui a).

(** The texts of the [append_to_streaming] calls, in order. *)
Fixpoint tokens (cs : list UiCall) : list str :=
  match cs with
  | [] => []
  | AppendToStreaming c :: rest => c :: tokens rest
  | _ :: rest => tokens rest
  end.

(** The specification's kinds of [StreamFailed]; [Aborted] is the
    source's last handler, [except Exception]. *)
Inductive StreamFailed :=
| FailTimeout
| FailUnreachable
| FailServerError (code : Z)
| FailEmptyResponse
| FailAborted (e : Exn).

Definition failure_of_exn (e : Exn) : StreamFailed :=
  if is_Timeout (kind e) then FailTimeout
  else if is_ConnectionError (kind e) then FailUnreachable
  else FailAborted e.

(** How the request [o] fails, if it does: [None] is normal completion
    with a non-empty text. *)
Definition failure (o : PostOutcome) : option StreamFailed :=
  match o with
  | PostRaises e => Some (failure_of_exn e)
  | PostReturns response =>
      if (status_code response =? 200)%Z then
        match fst (loop_run (lines response) (lines_end response) []) with
        | Ok full_response =>
            if Str.truthy full_response then None else Some FailEmptyResponse
        | Raised e => Some (failure_of_exn e)
        end
      else Some (FailServerError (status_code response))
  end.

(** The completion flag of a decoded unit: the truth value of
    [json_data.get("done", False)]. *)
Definition done_flag (v : json) : bool :=
  match v with
  | JObj members =>
      match dict_lookup members (lit "done") with
      | Some d => truthy d
      | None => false
      end
  | _ => false
  end.

(** A user submission: [send_message], typed or through the voice path. *)
Definition is_submission (act : Action) : bool :=
  match act with
  | SendMessage | VoiceInput _ => true
  | _ => false
  end.

(** Whitespace only (or empty). *)
Definition blank (s : str) : bool := forallb isspace s.

(** ** Sample data *)

Module Sample.

Definition unit_value (c : string) (done : bool) : json :=
  JObj [(lit "message", JObj [(lit "role", JStr (lit "assistant"));
                               (lit "content", JStr (lit c))]);
        (lit "done", JBool done)].

Definition unit_ (c : string) (done : bool) : WireLine :=
  Json (unit_value c done).

Definition hi : WireLine := unit_ "Hi" false.
Definition there : WireLine := unit_ " there" true.

Definition ok_response (ls : list WireLine) : PostOutcome :=
  PostReturns (mkResponse 200 [] ls None).

(** After "hello" was submitted from the initial state. *)
Definition asked : App := exec (submitUserText (lit "hello")) idle.

Definition bad_utf8 : WireLine :=
  NotUtf8 (lit "'utf-8' codec can't decode byte 0xff in position 0: invalid start byte").

Definition bad_json : WireLine :=
  NotJson (lit "Expecting value: line 1 column 1 (char 0)").

Definition request_error : Attempt :=
  mkAttempt None (Raised (mkExn RequestError (lit "recognition connection failed")))
    true None.

Definition unknown_value : Attempt :=
  mkAttempt None (Raised (mkExn UnknownValueError [])) true None.

Definition device_error (recalibration : option Exn) : Attempt :=
  mkAttempt (Some (mkExn OtherException (lit "Stream closed")))
    (Ok []) true recalibration.

End Sample.

Import Sample.

(** The first testable property of the single-in-flight policy, as the
    specification words it: a submission made while a stream is
    outstanding is rejected and changes nothing. *)
Definition rejected_while_in_flight (st : App) (text : str) : Prop :=
  inFlight st = true ->
  fst (submitUserText text st) = Ok Rejected /\
  conversation_history (exec (submitUserText text) st) = conversation_history st /\
  running (exec (submitUserText text) st) = running st.

(** The voice loop's rule at the cap, as the specification words it for
    recognition-service errors: the pass that brings the counter to the
    cap recalibrates the recognizer and resets the counter. *)
Definition recalibrates_at_cap (v : Voice) (a : Attempt) : Prop :=
  listen a = None ->
  (exists e, recognize_google a = Raised e /\ kind e = RequestError) ->
  consecutive_errors v + 1 = max_errors ->
  recalibrations (exec (listen_body a) v) = S (recalibrations v) /\
  consecutive_errors (exec (listen_body a) v) = 0.

(** The recalibration of this pass, if it is tried, returns. *)
Definition calm (a : Attempt) : Prop := adjust_for_ambient_noise a = None.

(** * The rest of the session *)

(** ** More of the streaming loop *)

(** A unit as the server sends it:
    [{"message": {"role": "assistant", "content": c}, "done": done}]. *)
Definition chunk (c : str) (done : bool) : json :=
  JObj [(lit "message", JObj [(lit "role", JStr (lit "assistant"));
                               (lit "content", JStr c)]);
        (lit "done", JBool done)].

(** The loop over the first lines of a response, keeping how it was
    left: [Break] after a unit that reported completion, [Continue] when
    the lines ran out. *)
Fixpoint scan (ls : list WireLine) (full_response : str) : M App (Flow * str) :=
  match ls with
  | [] => ret (Continue, full_response)
  | line :: rest =>
      r <- loop_body line full_response ;;
      match r with
      | (Continue, full_response') => scan rest full_response'
      | (Break, full_response') => ret (Break, full_response')
      end
  end.

(** A decoded unit that brings no text and does not report completion:
    no ["message"], or a message without ["content"] or with a falsy
    one, and a falsy or missing ["done"]. *)
Definition quiet (v : json) : bool :=
  match v with
  | JObj members =>
      match dict_lookup members (lit "message") with
      | None => true
      | Some (JObj inner) =>
          match dict_lookup inner (lit "content") with
          | None => true
          | Some c => negb (truthy c)
          end
      | Some _ => false
      end
      && negb (done_flag v)
  | _ => false
  end.

(** A decoded line on which the first [.get] fails: it is no object, or
    its ["message"] is there and is no object. *)
Definition not_a_unit (v : json) : bool :=
  match v with
  | JObj members =>
      match dict_lookup members (lit "message") with
      | None | Some (JObj _) => false
      | Some _ => true
      end
  | _ => true
  end.

(** The text [get_ollama_response] reports for a failure. *)
Definition report (o : PostOutcome) (k : StreamFailed) : str :=
  match k with
  | FailTimeout => msg_timeout
  | FailUnreachable => msg_unreachable
  | FailServerError code =>
      lit "Error: " ++ of_Z code ++ lit " - "
      ++ prefix 200 (match o with PostReturns r => text r | PostRaises _ => [] end)
  | FailEmptyResponse => msg_no_response
  | FailAborted e => lit "Error: " ++ exn_str e
  end.

(** A call that hands a non-empty text to [append_to_streaming]. *)
Definition is_token (c : UiCall) : Prop :=
  exists t, c = AppendToStreaming t /\ t <> [].

(** ** [on_enter_pressed] and the events of a session *)

(** [on_enter_pressed(event)]; [state] is [event.state]. The result is
    what the binding returns: ["break"] or [None]. *)
Definition on_enter_pressed (state : Z) : M App (option str) :=
  if (state =? 0)%Z then
    _ <- send_message ;;
    ret (Some (lit "break"))
  else ret None.

Inductive Event :=
| Do (act : Action)
| EnterPressed (state : Z).

Definition handle (ev : Event) : M App unit :=
  match ev with
  | Do act => run act
  | EnterPressed state => _ <- on_enter_pressed state ;; ret tt
  end.

(** The events of a session, one after the other. *)
Fixpoint session (evs : list Event) : M App unit :=
  match evs with
  | [] => ret tt
  | ev :: rest => handle ev ;; session rest
  end.

(** What every entry of the history looks like: a user turn holds a
    stripped, non-empty text, an assistant turn a non-empty one. *)
Definition well_formed (t : Turn) : Prop :=
  content t <> [] /\
  match role t with
  | User => strip (content t) = content t
  | Assistant => True
  | System => False
  end.

(** What one step may do to the history: nothing, or one more
    well-formed turn at the end. *)
Definition grows_by_one (h h' : list Turn) : Prop :=
  h' = h \/ exists t, h' = h ++ [t] /\ well_formed t.

(** ** More of the voice loop *)

(** The pass heard nothing before the silence timeout:
    [self.recognizer.listen] raised [sr.WaitTimeoutError]. *)
Definition silent (a : Attempt) : Prop :=
  exists e, listen a = Some e /\ kind e = WaitTimeoutError.

(** The capture itself failed (not by the silence timeout) and the stop
    command had arrived by the time the handler looked. *)
Definition stopped (a : Attempt) : Prop :=
  (exists e, listen a = Some e /\ kind e <> WaitTimeoutError) /\
  is_listening a = false.


Definition msg_louder : str :=
  microphone_sign :: lit " Listening... (speak louder or clearer)".


(** A scheduled [process_voice_input] carries a text that is not blank. *)
Definition worth_sending (c : UiCall) : Prop :=
  match c with
  | ProcessVoiceInput t => Str.truthy (strip t) = true
  | _ => True
  end.

(** ** The chat display and the status bar *)

(** The widgets [add_message], [start_streaming_message],
    [append_to_streaming], [finish_streaming_message] and [update_status]
    draw on. The text of [chat_display] is kept as the runs that were
    inserted, each with its tag; a tag's options are shared by every run
    that carries it, as in Tk. A text widget ignores [insert] while its
    state is [DISABLED]. [see(tk.END)] only scrolls and is left out.
    [streaming_message_start], a Tk index in the source, is the offset
    of that position from the start of the text. *)
Module Screen.

Inductive WidgetState := NORMAL | DISABLED.

Inductive TkValue :=
| Colour (c : str)
| Font (family : str) (size : Z) (styles : list str).

Definition Options := list (str * TkValue).

Record Segment := mkSegment { seg_text : str; seg_tag : option str }.

Record Display := mkDisplay {
  chat : list Segment;
  chat_state : WidgetState;
  tags : list (str * Options);
  status_bar : str;
  streaming_message_start : option nat
}.

Definition chat_text (d : Display) : str :=
  List.concat (map seg_text (chat d)).

(** One option of a widget or tag set to a new value. *)
Fixpoint set_option (key : str) (v : TkValue) (o : Options) : Options :=
  match o with
  | [] => [(key, v)]
  | (k, w) :: rest =>
      if Str.eqb k key then (key, v) :: rest
      else (k, w) :: set_option key v rest
  end.

Definition configure (new old : Options) : Options :=
  fold_left (fun o kv => set_option (fst kv) (snd kv) o) new old.

Fixpoint tag_update (name : str) (new : Options) (ts : list (str * Options))
  : list (str * Options) :=
  match ts with
  | [] => [(name, configure new [])]
  | (n, o) :: rest =>
      if Str.eqb n name then (n, configure new o) :: rest
      else (n, o) :: tag_update name new rest
  end.

Fixpoint lookup {A} (key : str) (l : list (str * A)) : option A :=
  match l with
  | [] => None
  | (k, v) :: rest => if Str.eqb k key then Some v else lookup key rest
  end.

(** [chat_display.tag_cget(name, key)] *)
Definition tag_cget (d : Display) (name key : str) : option TkValue :=
  match lookup name (tags d) with
  | Some o => lookup key o
  | None => None
  end.

(** [self.chat_display.config(state=s)] *)
Definition config_state (s : WidgetState) : M Display unit :=
  modify (fun d => mkDisplay (chat d) s (tags d) (status_bar d)
                     (streaming_message_start d)).

(** [self.chat_display.insert(tk.END, text, tag)] *)
Definition insert_end (text : str) (tag : option str) : M Display unit :=
  modify (fun d =>
    match chat_state d, text with
    | NORMAL, _ :: _ =>
        mkDisplay (chat d ++ [mkSegment text tag]) (chat_state d) (tags d)
          (status_bar d) (streaming_message_start d)
    | _, _ => d
    end).

(** [self.chat_display.tag_config(name, **options)] *)
Definition tag_config (name : str) (options : Options) : M Display unit :=
  modify (fun d => mkDisplay (chat d) (chat_state d)
                     (tag_update name options (tags d)) (status_bar d)
                     (streaming_message_start d)).

Definition robot : Str.char := 129302%N.   (* U+1F916 *)

(** [add_message]; [timestamp] is [datetime.now().strftime("%H:%M")]. *)
Definition add_message (timestamp : str) (sender : Role) (message : str)
  : M Display unit :=
  config_state NORMAL ;;
  let '(prefix, color) :=
    match sender with
    | User => (lit "[" ++ timestamp ++ lit "] You: ", lit "#007AFF")
    | Assistant => (lit "[" ++ timestamp ++ lit "] Assistant: ", lit "#34C759")
    | System => ([], lit "#888888")
    end in
  insert_end prefix (Some (lit "prefix")) ;;
  insert_end (message ++ [newline; newline]) (Some (lit "message")) ;;
  tag_config (lit "prefix")
    [(lit "foreground", Colour color);
     (lit "font", Font (lit "SF Mono") 11 [lit "bold"])] ;;
  tag_config (lit "message") [(lit "foreground", Colour (lit "#e0e0e0"))] ;;
  config_state DISABLED.

Definition start_streaming_message (timestamp : str) : M Display unit :=
  config_state NORMAL ;;
  let prefix := robot :: lit " Assistant [" ++ timestamp
                ++ lit "]" ++ [newline] in
  insert_end prefix (Some (lit "streaming_prefix")) ;;
  tag_config (lit "streaming_prefix")
    [(lit "foreground", Colour (lit "#7c3aed"));
     (lit "font", Font (lit "SF Mono") 10 [lit "bold"]);
     (lit "background", Colour (lit "#1c2128"))] ;;
  config_state DISABLED ;;
  modify (fun d => mkDisplay (chat d) (chat_state d) (tags d) (status_bar d)
                     (Some (List.length (chat_text d)))).

Definition append_to_streaming (content : str) : M Display unit :=
  config_state NORMAL ;;
  insert_end content (Some (lit "streaming_message")) ;;
  tag_config (lit "streaming_message")
    [(lit "foreground", Colour (lit "#c9d1d9"));
     (lit "font", Font (lit "SF Mono") 12 []);
     (lit "background", Colour (lit "#1c2128"))] ;;
  config_state DISABLED.

Definition finish_streaming_message : M Display unit :=
  config_state NORMAL ;;
  insert_end [newline; newline] None ;;
  config_state DISABLED.

(** [self.status_bar.config(text=message)] *)
Definition update_status (message : str) : M Display unit :=
  modify (fun d => mkDisplay (chat d) (chat_state d) (tags d) message
                     (streaming_message_start d)).

(** A call of the UI queue, run at the minute [timestamp]. The calls on
    the model drop-down and [process_voice_input] draw nothing here, and
    neither does the callback that raises. *)
Definition show (timestamp : str) (c : UiCall) : M Display unit :=
  match c with
  | AddMessage sender message => add_message timestamp sender message
  | UpdateStatus message => update_status message
  | StartStreamingMessage => start_streaming_message timestamp
  | AppendToStreaming content => append_to_streaming content
  | FinishStreamingMessage => finish_streaming_message
  | ModelDropdownConfig _ | ModelVarSetFromModel | ProcessVoiceInput _
  | StatusOfUnboundError => ret tt
  end.

Fixpoint show_all (timed : list (str * UiCall)) : M Display unit :=
  match timed with
  | [] => ret tt
  | (timestamp, c) :: rest => show timestamp c ;; show_all rest
  end.

(** The colour a run of the chat is drawn in, when its tag sets one. *)
Definition foreground (d : Display) (s : Segment) : option TkValue :=
  match seg_tag s with
  | Some name => tag_cget d name (lit "foreground")
  | None => None
  end.

(** The colour [add_message] picks for a sender. *)
Definition sender_colour (sender : Role) : str :=
  match sender with
  | User => lit "#007AFF"
  | Assistant => lit "#34C759"
  | System => lit "#888888"
  end.

End Screen.

(** ** The voice button *)

(** What [toggle_voice_listening], [start_listening] and
    [stop_listening] read and write. Of the button only the options
    these methods configure are kept. [listeners] counts the
    [listen_continuously] threads started, [calibrations] the
    [adjust_for_ambient_noise(source, duration=0.8)] calls that
    returned, [warnings] the [messagebox.showwarning(title, message)]
    boxes shown. *)
Module Panel.

Record Button := mkButton { text : str; bg : str; activebackground : str }.

Record VoicePanel := mkPanel {
  SPEECH_RECOGNITION_AVAILABLE : bool;
  recognizer : bool;             (* self.recognizer is not None *)
  microphone : bool;             (* self.microphone is not None *)
  is_listening : bool;
  voice_button : Button;
  status : str;
  warnings : list (str * str);
  listeners : nat;
  calibrations : nat
}.

Definition red_circle : Str.char := 128308%N.   (* U+1F534 *)

Definition showwarning (title message : str) : M VoicePanel unit :=
  modify (fun p =>
    mkPanel (SPEECH_RECOGNITION_AVAILABLE p) (recognizer p) (microphone p)
      (is_listening p) (voice_button p) (status p)
      (warnings p ++ [(title, message)]) (listeners p) (calibrations p)).

Definition set_is_listening (b : bool) : M VoicePanel unit :=
  modify (fun p =>
    mkPanel (SPEECH_RECOGNITION_AVAILABLE p) (recognizer p) (microphone p)
      b (voice_button p) (status p) (warnings p) (listeners p) (calibrations p)).

Definition voice_button_config (b : Button) : M VoicePanel unit :=
  modify (fun p =>
    mkPanel (SPEECH_RECOGNITION_AVAILABLE p) (recognizer p) (microphone p)
      (is_listening p) b (status p) (warnings p) (listeners p) (calibrations p)).

Definition update_status (message : str) : M VoicePanel unit :=
  modify (fun p =>
    mkPanel (SPEECH_RECOGNITION_AVAILABLE p) (recognizer p) (microphone p)
      (is_listening p) (voice_button p) message (warnings p) (listeners p)
      (calibrations p)).

(** The recalibration of [start_listening]; [outcome] is what the
    microphone does. *)
Definition adjust (outcome : option Exn) : M VoicePanel unit :=
  match outcome with
  | None =>
      modify (fun p =>
        mkPanel (SPEECH_RECOGNITION_AVAILABLE p) (recognizer p) (microphone p)
          (is_listening p) (voice_button p) (status p) (warnings p)
          (listeners p) (S (calibrations p)))
  | Some e => raise e
  end.

Definition thread_start : M VoicePanel unit :=
  modify (fun p =>
    mkPanel (SPEECH_RECOGNITION_AVAILABLE p) (recognizer p) (microphone p)
      (is_listening p) (voice_button p) (status p) (warnings p)
      (S (listeners p)) (calibrations p)).

Definition start_listening (outcome : option Exn) : M VoicePanel unit :=
  r <- gets recognizer ;;
  m <- gets microphone ;;
  if negb r || negb m then
    showwarning (lit "Voice Not Available")
      (lit "Microphone not initialized. Please check your microphone permissions.")
  else
    set_is_listening true ;;
    voice_button_config (mkButton [red_circle] (lit "#da3633") (lit "#f85149")) ;;
    update_status (microphone_sign :: lit " Listening... Speak clearly") ;;
    try_except (adjust outcome) (fun _ => ret tt) ;;
    thread_start.

Definition stop_listening : M VoicePanel unit :=
  set_is_listening false ;;
  voice_button_config (mkButton [microphone_sign] (lit "#34C759") (lit "#28A745")) ;;
  update_status (lit "Voice listening stopped").

Definition toggle_voice_listening (outcome : option Exn) : M VoicePanel unit :=
  available <- gets SPEECH_RECOGNITION_AVAILABLE ;;
  r <- gets recognizer ;;
  if negb available || negb r then
    showwarning (lit "Voice Not Available")
      (lit "Speech recognition is not available. Please install: pip install SpeechRecognition pyaudio")
  else
    listening <- gets is_listening ;;
    if listening then stop_listening else start_listening outcome.

(** The button pressed once for every element of [outcomes]. *)
Fixpoint presses (outcomes : list (option Exn)) : M VoicePanel unit :=
  match outcomes with
  | [] => ret tt
  | o :: rest => toggle_voice_listening o ;; presses rest
  end.

(** The panel as [__init__] leaves it ([setup_ui] made the button,
    [check_ollama_connection] wrote the status last), by whether the
    speech package, the recognizer and the microphone are there. *)
Definition fresh (available r m : bool) : VoicePanel :=
  mkPanel available r m false
    (mkButton [microphone_sign] (lit "#238636") (lit "#2ea043"))
    (lit "Checking Ollama connection...") [] 0 0.

(** The button tells whether the application listens. *)
Definition lamp_agrees (p : VoicePanel) : Prop :=
  text (voice_button p) = if is_listening p then [red_circle] else [microphone_sign].

(** Listening needs the speech package, a recognizer and a microphone. *)
Definition equipped (p : VoicePanel) : bool :=
  SPEECH_RECOGNITION_AVAILABLE p && recognizer p && microphone p.

End Panel.

(** ** Words for the revised statements *)

(** After "again" was submitted too, while the stream of "hello" is
    still outstanding: two workers run. *)
Definition asked_twice : App := exec (submitUserText (lit "again")) asked.

(** The failure rule of the specification, as it words it: a request
    that fails with a timeout, an unreachable server or an error status
    resets [inFlight] to false and leaves the history. *)
Definition failure_resets_in_flight (st : App) (um : str) (o : PostOutcome)
  : Prop :=
  (failure o = Some FailTimeout \/ failure o = Some FailUnreachable \/
   exists code, failure o = Some (FailServerError code)) ->
  inFlight (exec (worker um o) st) = false /\
  conversation_history (exec (worker um o) st) = conversation_history st.

Definition msg_check_internet : str :=
  microphone_sign :: lit " Listening... (check internet connection)".

Definition msg_recalibrated : str :=
  microphone_sign :: lit " Recalibrated - Listening...".

(** The exception of a pass that reaches the last handler of the loop,
    [except Exception]: one raised by the capture, other than the
    silence timeout, or one raised by the recognition that is neither
    [UnknownValueError] nor [RequestError]. *)
Definition capture_exception (a : Attempt) : option Exn :=
  match listen a with
  | Some e =>
      match kind e with
      | WaitTimeoutError => None
      | _ => Some e
      end
  | None =>
      match recognize_google a with
      | Ok _ => None
      | Raised e =>
          match kind e with
          | WaitTimeoutError | UnknownValueError | RequestError => None
          | _ => Some e
          end
      end
  end.

(** The "Processing speech" status of a pass whose capture returned. *)
Definition heard_status (a : Attempt) : list UiCall :=
  match listen a with
  | None => [UpdateStatus msg_processing]
  | Some _ => []
  end.

(** * Properties *)

(** ** Stripping *)

Section Strip.

Lemma lstrip_length s : List.length (lstrip s) <= List.length s.
Proof.
  induction s as [|c s IH]; simpl; [lia|].
  destruct (isspace c); simpl; lia.
Qed.

(** [lstrip] leaves exactly the strings that do not start with a space. *)
Lemma lstrip_fixed s :
  lstrip s = s <-> match s with [] => True | c :: _ => isspace c = false end.
Proof.
  destruct s as [|c s]; simpl; [tauto|].
  destruct (isspace c) eqn:E; split; intro H; try reflexivity; try discriminate.
  pose proof (lstrip_length s) as L. rewrite H in L. simpl in L. lia.
Qed.

Lemma lstrip_idem s : lstrip (lstrip s) = lstrip s.
Proof.
  induction s as [|c s IH]; simpl; [reflexivity|].
  destruct (isspace c) eqn:E; [exact IH|].
  simpl. rewrite E. reflexivity.
Qed.

Lemma lstrip_blank s : blank s = true -> lstrip s = [].
Proof.
  induction s as [|c s IH]; simpl; [reflexivity|].
  destruct (isspace c); simpl; [exact IH | discriminate].
Qed.

Lemma blank_rev s : blank (rev s) = blank s.
Proof.
  unfold blank. induction s as [|c s IH]; simpl; [reflexivity|].
  rewrite forallb_app, IH. simpl. rewrite andb_true_r. apply andb_comm.
Qed.

(** The newline a Tk text widget adds is stripped with the rest. *)
Lemma strip_newline s : strip (s ++ [newline]) = strip s.
Proof.
  unfold strip, rstrip. rewrite rev_app_distr. reflexivity.
Qed.

Lemma strip_blank s : blank s = true -> strip s = [].
Proof.
  intro H. unfold strip, rstrip.
  rewrite (lstrip_blank (rev s)); [reflexivity|].
  rewrite blank_rev. exact H.
Qed.

(** A string that ends in no space is left alone by [rstrip]. *)
Lemma rstrip_fixed s : lstrip (rev s) = rev s -> rstrip s = s.
Proof.
  intro H. unfold rstrip. rewrite H. apply rev_involutive.
Qed.

Lemma rstrip_ends s : lstrip (rev (rstrip s)) = rev (rstrip s).
Proof.
  unfold rstrip. rewrite rev_involutive. apply lstrip_idem.
Qed.

(** [lstrip] drops a prefix, so it keeps the last character. *)
Lemma lstrip_keeps_end s :
  lstrip (rev s) = rev s -> lstrip (rev (lstrip s)) = rev (lstrip s).
Proof.
  induction s as [|c s IH]; simpl; [reflexivity|].
  destruct (isspace c) eqn:E; [|trivial].
  intro H. apply IH.
  destruct (rev s) as [|d r] eqn:R; [reflexivity|].
  simpl in H. apply lstrip_fixed.
  destruct (isspace d) eqn:D; [|reflexivity].
  pose proof (lstrip_length (r ++ [c])) as L.
  rewrite H in L. simpl in L. lia.
Qed.

Lemma strip_idem s : strip (strip s) = strip s.
Proof.
  unfold strip at 1.
  rewrite rstrip_fixed.
  - apply lstrip_idem.
  - unfold strip. apply lstrip_keeps_end, rstrip_ends.
Qed.

End Strip.

(** ** [send_message] *)

Ltac run_monad :=
  unfold submitUserText, send_message, process_voice_input, worker,
    history_append, thread_start, thread_exit, input_field_get,
    input_field_delete, input_field_insert, add_message, update_status,
    root_after, call, try_except, bind, ret, raise, modify, gets, exec in *.

Lemma send_message_rejects st :
  blank (input_field st) = true -> send_message st = (Ok Rejected, st).
Proof.
  intro H. run_monad. rewrite strip_newline, (strip_blank _ H). reflexivity.
Qed.

Lemma send_message_accepts st :
  Str.truthy (strip (input_field st)) = true ->
  send_message st =
    (Ok Submitted,
     mkApp (model st)
       (conversation_history st ++ [mkTurn User (strip (input_field st))])
       [] (S (running st))
       (ui st ++ [AddMessage User (strip (input_field st))]
              ++ [UpdateStatus (lit "Thinking...")])).
Proof.
  intro H. run_monad. rewrite strip_newline, H. cbn.
  rewrite <- app_assoc. reflexivity.
Qed.

(** C9. A submission whose text is empty or only whitespace takes the
    early return of [send_message]: with that text in the input field the
    call is [Rejected] and leaves the whole state as it was, so the
    history is unchanged, no worker thread (no request) is started and
    [inFlight] is not set. *)
Theorem blank_submission_is_rejected (st : App) (text : str) :
  blank text = true ->
  send_message (set_input text st) = (Ok Rejected, set_input text st) /\
  fst (submitUserText text st) = Ok Rejected /\
  conversation_history (exec (submitUserText text) st) = conversation_history st /\
  running (exec (submitUserText text) st) = running st /\
  inFlight (exec (submitUserText text) st) = inFlight st /\
  ui (exec (submitUserText text) st) = ui st.
Proof.
  intro H.
  assert (E : send_message (set_input text st) = (Ok Rejected, set_input text st))
    by (apply send_message_rejects; exact H).
  split; [exact E|].
  unfold submitUserText, bind, modify, exec. rewrite E. cbn. repeat split.
Qed.

Lemma blank_submission_is_rejected_witness :
  blank [] = true /\
  send_message (set_input [] idle) = (Ok Rejected, set_input [] idle) /\
  blank (lit "  ") = true /\
  send_message (set_input (lit "  ") asked) = (Ok Rejected, set_input (lit "  ") asked).
Proof.
  split; [reflexivity|].
  split; [apply (blank_submission_is_rejected idle []); reflexivity|].
  split; [reflexivity|].
  apply (blank_submission_is_rejected asked (lit "  ")). reflexivity.
Defined.

(** C1, as stated, fails: after "hello" was submitted and while its
    stream is outstanding, submitting "again" is not rejected. *)
Lemma second_submission_not_rejected :
  ~ rejected_while_in_flight asked (lit "again").
Proof.
  intro H. destruct (H eq_refl) as [R _]. vm_compute in R. discriminate R.
Qed.

Lemma submitUserText_accepts st text :
  Str.truthy (strip text) = true ->
  fst (submitUserText text st) = Ok Submitted /\
  conversation_history (exec (submitUserText text) st)
    = conversation_history st ++ [mkTurn User (strip text)] /\
  running (exec (submitUserText text) st) = S (running st).
Proof.
  intro H.
  assert (E := send_message_accepts (set_input text st) H).
  unfold submitUserText, bind, modify, exec. rewrite E. cbn. repeat split.
Qed.

(** C1, amended. [send_message] keeps no in-flight flag and never looks
    at the outstanding workers: a submission whose text is not blank is
    accepted in every state, appends the user turn with the stripped text
    and starts one more worker (one more streaming request), also while a
    stream is outstanding. *)
Theorem submission_accepted_while_in_flight (st : App) (text : str) :
  Str.truthy (strip text) = true ->
  fst (submitUserText text st) = Ok Submitted /\
  conversation_history (exec (submitUserText text) st)
    = conversation_history st ++ [mkTurn User (strip text)] /\
  running (exec (submitUserText text) st) = S (running st) /\
  inFlight (exec (submitUserText text) st) = true.
Proof.
  intro H. destruct (submitUserText_accepts st text H) as (R & C & N).
  repeat split; [exact R | exact C | exact N |].
  unfold inFlight. rewrite N. reflexivity.
Qed.

Lemma submission_accepted_while_in_flight_witness :
  inFlight asked = true /\
  fst (submitUserText (lit "again") asked) = Ok Submitted /\
  running (exec (submitUserText (lit "again")) asked) = 2.
Proof.
  split; [reflexivity|].
  destruct (submission_accepted_while_in_flight asked (lit "again") eq_refl)
    as (R & _ & N & _).
  split; [exact R | exact N].
Defined.

(** ** The loop over the lines *)

Lemma set_ui_nil st : set_ui (ui st ++ []) st = st.
Proof. destruct st. unfold set_ui. cbn. rewrite app_nil_r. reflexivity. Qed.

Ltac split_cases :=
  repeat (cbn;
    match goal with
    | |- context [match dict_lookup ?m ?k with _ => _ end] =>
        destruct (dict_lookup m k)
    | |- context [match ?v with JNull => _ | _ => _ end] => destruct v
    | |- context [if ?b then _ else _] => destruct b
    end).

(** A pass of the loop reads nothing of [self] and only adds calls to
    the UI queue. *)
Lemma loop_body_frame line full st :
  loop_body line full st =
    (fst (loop_body line full idle),
     set_ui (ui st ++ ui (snd (loop_body line full idle))) st).
Proof.
  destruct line as [|m|m|v|ex]; unfold loop_body, loads_decode, py_get, iadd;
    run_monad; cbn; try (rewrite set_ui_nil; reflexivity).
  2: destruct (kind ex); cbn; rewrite set_ui_nil; reflexivity.
  split_cases; try (rewrite set_ui_nil; reflexivity); try reflexivity.
Qed.

Lemma set_ui_set_ui u v st : set_ui u (set_ui v st) = set_ui u st.
Proof. reflexivity. Qed.

(** The loop reads nothing of [self] and only adds calls to the UI
    queue: [loop_run] tells what it does in every state. *)
Lemma for_lines_frame ls e : forall full st,
  for_lines ls e full st =
    (fst (loop_run ls e full), set_ui (ui st ++ snd (loop_run ls e full)) st).
Proof.
  unfold loop_run.
  induction ls as [|line ls IH]; intros full st.
  - destruct e; cbn; rewrite set_ui_nil; reflexivity.
  - cbn [for_lines]. unfold bind.
    rewrite (loop_body_frame line full st).
    destruct (loop_body line full idle) as [[[[|] full']|ex] a0]; cbn [fst snd].
    + rewrite (IH full' a0), (IH full' (set_ui (ui st ++ ui a0) st)).
      destruct (for_lines ls e full' idle) as [r a1]. cbn.
      rewrite app_assoc. reflexivity.
    + cbn. reflexivity.
    + reflexivity.
Qed.

Lemma tokens_app a b : tokens (a ++ b) = tokens a ++ tokens b.
Proof.
  induction a as [|c a IH]; [reflexivity|].
  destruct c; cbn; rewrite ?IH; reflexivity.
Qed.

(** One pass appends to [full_response] exactly what it hands to
    [append_to_streaming]; a pass that raises hands over nothing. *)
Lemma loop_body_tokens line full :
  match fst (loop_body line full idle) with
  | Ok (_, full') =>
      full' = full ++ List.concat (tokens (ui (snd (loop_body line full idle))))
  | Raised _ => ui (snd (loop_body line full idle)) = []
  end.
Proof.
  destruct line as [|m|m|v|ex]; unfold loop_body, loads_decode, py_get, iadd;
    run_monad; cbn; rewrite ?app_nil_r; try reflexivity.
  2: destruct (kind ex); cbn; rewrite ?app_nil_r; reflexivity.
  split_cases; cbn; rewrite ?app_nil_r; reflexivity.
Qed.

(** The loop invariant of [for line in response.iter_lines()]: the text
    accumulated is the concatenation of the fragments scheduled for
    display, in order. *)
Lemma loop_run_tokens ls e : forall full full' calls,
  loop_run ls e full = (Ok full', calls) ->
  full' = full ++ List.concat (tokens calls).
Proof.
  unfold loop_run.
  induction ls as [|line ls IH]; intros full full' calls.
  - destruct e; cbn; intro H; inversion H; subst.
    cbn. rewrite app_nil_r. reflexivity.
  - cbn [for_lines]. unfold bind.
    pose proof (loop_body_tokens line full) as T.
    destruct (loop_body line full idle) as [[[[|] f1]|ex] a0]; cbn [fst snd] in T.
    + rewrite (for_lines_frame ls e f1 a0). intro H. inversion H as [[H1 H2]].
      destruct (loop_run ls e f1) as [r c1] eqn:R. cbn in *. subst r.
      specialize (IH f1 full' c1). unfold loop_run in R.
      destruct (for_lines ls e f1 idle) as [r2 a2]. inversion R; subst.
      rewrite (IH eq_refl), tokens_app, concat_app, app_assoc. reflexivity.
    + intro H. inversion H; subst. reflexivity.
    + discriminate.
Qed.

(** ** [get_ollama_response] *)

Ltac run_request H200 :=
  unfold get_ollama_response, requests_post; run_monad;
  rewrite ?H200; cbn [Z.eqb Pos.eqb];
  unfold set_ui at 1; cbn [model conversation_history input_field running ui].

Lemma get_ollama_response_completed st um r full calls :
  status_code r = 200%Z ->
  loop_run (lines r) (lines_end r) [] = (Ok full, calls) ->
  Str.truthy full = true ->
  get_ollama_response um (PostReturns r) st =
    (Ok tt,
     set_ui (ui st ++ StartStreamingMessage :: calls
               ++ [FinishStreamingMessage; UpdateStatus (lit "Ready")])
       (set_history (conversation_history st ++ [mkTurn Assistant full]) st)).
Proof.
  intros H200 L T. run_request H200.
  rewrite for_lines_frame, L. cbn [fst snd]. rewrite T.
  unfold set_ui, set_history. cbn.
  rewrite <- !app_assoc. reflexivity.
Qed.

Lemma get_ollama_response_empty st um r calls :
  status_code r = 200%Z ->
  loop_run (lines r) (lines_end r) [] = (Ok [], calls) ->
  get_ollama_response um (PostReturns r) st =
    (Ok tt,
     set_ui (ui st ++ StartStreamingMessage :: calls
               ++ [UpdateStatus msg_no_response;
                   AddMessage System msg_no_response]) st).
Proof.
  intros H200 L. run_request H200.
  rewrite for_lines_frame, L. cbn [fst snd Str.truthy].
  unfold set_ui. cbn.
  rewrite <- !app_assoc. reflexivity.
Qed.

(** Every failing request only schedules calls on the widgets. *)
Lemma get_ollama_response_failed st um o k :
  failure o = Some k ->
  exists calls,
    get_ollama_response um o st = (Ok tt, set_ui (ui st ++ calls) st).
Proof.
  destruct o as [e|r]; cbn [failure].
  - intros _. unfold get_ollama_response, requests_post. run_monad.
    destruct (is_Timeout (kind e)); [|destruct (is_ConnectionError (kind e))];
      unfold set_ui; cbn; rewrite <- app_assoc; eexists; reflexivity.
  - destruct (status_code r =? 200)%Z eqn:H200.
    + destruct (loop_run (lines r) (lines_end r) []) as [[full|e] calls] eqn:L;
        cbn [fst].
      * destruct full as [|c full]; [|discriminate]. intros _.
        apply Z.eqb_eq in H200.
        rewrite (get_ollama_response_empty st um r calls H200 L).
        eexists; reflexivity.
      * intros _. unfold get_ollama_response, requests_post. run_monad.
        rewrite H200. unfold set_ui at 1.
        cbn [model conversation_history input_field running ui].
        rewrite for_lines_frame, L. cbn [fst snd].
        destruct (is_Timeout (kind e)); [|destruct (is_ConnectionError (kind e))];
          unfold set_ui; cbn; rewrite <- !app_assoc; eexists; reflexivity.
    + intros _. unfold get_ollama_response, requests_post. run_monad.
      rewrite H200. unfold set_ui; cbn. rewrite <- !app_assoc.
      eexists; reflexivity.
Qed.

(** C2. When a stream completes normally (status 200, the loop over the
    lines ends without an exception and [full_response] is not empty),
    the fragments handed to [append_to_streaming], concatenated in the
    order they were scheduled, are [full_response]: the text the
    completion stands for ([finish_streaming_message] itself takes no
    argument) and the content of the assistant turn appended to the
    history. [new] below is everything the worker scheduled before the
    completion calls. *)
Theorem streamed_tokens_make_full_text
    (st : App) (um : str) (r : Response) (full : str) (calls : list UiCall) :
  status_code r = 200%Z ->
  loop_run (lines r) (lines_end r) [] = (Ok full, calls) ->
  full <> [] ->
  let st' := exec (get_ollama_response um (PostReturns r)) st in
  let new := StartStreamingMessage :: calls in
  ui st' = ui st ++ new ++ [FinishStreamingMessage; UpdateStatus (lit "Ready")] /\
  List.concat (tokens new) = full /\
  conversation_history st'
    = conversation_history st ++ [mkTurn Assistant (List.concat (tokens new))] /\
  failure (PostReturns r) = None.
Proof.
  intros H200 L NE.
  assert (T : Str.truthy full = true) by (destruct full; [contradiction|reflexivity]).
  assert (C : List.concat (tokens calls) = full)
    by (symmetry; apply (loop_run_tokens _ _ _ _ _ L)).
  cbn zeta. unfold exec.
  rewrite (get_ollama_response_completed st um r full calls H200 L T).
  cbn [snd tokens]. rewrite C. repeat split.
  cbn [failure]. rewrite H200, L. cbn. rewrite T. reflexivity.
Qed.

Lemma streamed_tokens_make_full_text_witness :
  List.concat
    (tokens (StartStreamingMessage
               :: [AppendToStreaming (lit "Hi"); AppendToStreaming (lit " there")]))
    = lit "Hi there" /\
  conversation_history
    (exec (get_ollama_response (lit "hello") (ok_response [hi; there])) asked)
    = [mkTurn User (lit "hello"); mkTurn Assistant (lit "Hi there")].
Proof.
  pose proof (@streamed_tokens_make_full_text asked (lit "hello")
                (mkResponse 200 [] [hi; there] None) (lit "Hi there")
                [AppendToStreaming (lit "Hi"); AppendToStreaming (lit " there")]
                eq_refl eq_refl ltac:(discriminate)) as (_ & C & H & _).
  split; [exact C | exact H].
Defined.

(** C4. A stream that reaches the end of the loop with an empty
    [full_response] is reported as "No response received from model" (the
    specification's [StreamFailed(EmptyResponse)]): no text was handed to
    [append_to_streaming], no turn is appended, and the history, hence
    its length, is what it was. *)
Theorem empty_stream_reports_no_response
    (st : App) (um : str) (r : Response) (calls : list UiCall) :
  status_code r = 200%Z ->
  loop_run (lines r) (lines_end r) [] = (Ok [], calls) ->
  let st' := exec (get_ollama_response um (PostReturns r)) st in
  failure (PostReturns r) = Some FailEmptyResponse /\
  ui st' = ui st ++ StartStreamingMessage :: calls
             ++ [UpdateStatus msg_no_response; AddMessage System msg_no_response] /\
  List.concat (tokens calls) = [] /\
  conversation_history st' = conversation_history st /\
  List.length (conversation_history st') = List.length (conversation_history st).
Proof.
  intros H200 L. cbn zeta. unfold exec.
  rewrite (get_ollama_response_empty st um r calls H200 L). cbn [snd].
  split; [cbn [failure]; rewrite H200, L; reflexivity|].
  split; [reflexivity|]. split; [|split; reflexivity].
  symmetry. apply (loop_run_tokens _ _ _ _ _ L).
Qed.

Lemma empty_stream_reports_no_response_witness :
  failure (ok_response [unit_ "" true]) = Some FailEmptyResponse /\
  conversation_history
    (exec (get_ollama_response (lit "hello") (ok_response [unit_ "" true])) asked)
    = conversation_history asked.
Proof.
  pose proof (@empty_stream_reports_no_response asked (lit "hello")
                (mkResponse 200 [] [unit_ "" true] None) []
                eq_refl eq_refl) as (F & _ & _ & H & _).
  split; [exact F | exact H].
Defined.

(** ** Where the loop stops and what it skips *)

(** A unit whose completion flag is true ends the loop: its pass breaks
    (or raises), and never goes on to the next line. *)
Lemma done_unit_stops v full st :
  done_flag v = true ->
  match fst (loop_body (Json v) full st) with
  | Ok (Continue, _) => False
  | _ => True
  end.
Proof.
  destruct v as [| | | | |items|members]; try discriminate.
  unfold done_flag. destruct (dict_lookup members (lit "done")) as [d|] eqn:D;
    [|discriminate].
  intro T. unfold loop_body, loads_decode, py_get, iadd. run_monad.
  rewrite D.
  repeat (cbn; rewrite ?T;
    match goal with
    | |- context [match dict_lookup ?m ?k with _ => _ end] =>
        destruct (dict_lookup m k)
    | |- context [match ?x with JNull => _ | _ => _ end] => destruct x
    | |- context [if ?b then _ else _] => destruct b
    end); cbn; rewrite ?T; trivial.
Qed.

Lemma for_lines_stops_at_done v : done_flag v = true ->
  forall pre post e e' full st,
    for_lines (pre ++ Json v :: post) e full st
    = for_lines (pre ++ [Json v]) e' full st.
Proof.
  intros D pre post e e'.
  induction pre as [|line pre IH]; intros full st.
  - cbn [app for_lines]. unfold bind.
    pose proof (@done_unit_stops v full st D) as S.
    destruct (loop_body (Json v) full st) as [[[[|] f1]|ex] a0]; cbn in S;
      [contradiction | reflexivity | reflexivity].
  - cbn [app for_lines]. unfold bind.
    destruct (loop_body line full st) as [[[[|] f1]|ex] a0];
      [apply IH | reflexivity | reflexivity].
Qed.

(** C6. The loop stops at a decoded unit whose completion flag is true:
    whatever lines [post] follow it on the wire, and however the wire
    ends after them, the loop computes the same text and schedules the
    same calls as if the unit were the last line, and so does the whole
    of [get_ollama_response]; no fragment of [post] is accumulated or
    shown. *)
Theorem nothing_read_after_done
    (v : json) (pre post : list WireLine) (e : option Exn)
    (code : Z) (body um : str) (st : App) :
  done_flag v = true ->
  loop_run (pre ++ Json v :: post) e [] = loop_run (pre ++ [Json v]) None [] /\
  get_ollama_response um
    (PostReturns (mkResponse code body (pre ++ Json v :: post) e)) st
  = get_ollama_response um
      (PostReturns (mkResponse code body (pre ++ [Json v]) None)) st.
Proof.
  intro D. split.
  - unfold loop_run. rewrite (@for_lines_stops_at_done v D pre post e None).
    reflexivity.
  - unfold get_ollama_response, requests_post, try_except, bind, ret.
    cbn [status_code lines lines_end].
    destruct (code =? 200)%Z; [|reflexivity].
    destruct (root_after StartStreamingMessage st) as [[u|ex] s1]; [|reflexivity].
    rewrite (@for_lines_stops_at_done v D pre post e None). reflexivity.
Qed.

Lemma nothing_read_after_done_witness :
  done_flag (unit_value " there" true) = true /\
  loop_run ([hi] ++ there :: [hi; hi]) None [] = loop_run ([hi] ++ [there]) None [] /\
  snd (loop_run ([hi] ++ there :: [hi; hi]) None [])
    = [AppendToStreaming (lit "Hi"); AppendToStreaming (lit " there")].
Proof.
  split; [reflexivity|].
  split; [|reflexivity].
  apply (@nothing_read_after_done (unit_value " there" true) [hi] [hi; hi]
           None 200%Z [] [] idle).
  reflexivity.
Defined.

(** A line that [json.loads] rejects is skipped: [json.JSONDecodeError]
    is caught inside the loop, which goes on with the next line. *)
Lemma not_json_line_skipped msg pre post e : forall full st,
  for_lines (pre ++ NotJson msg :: post) e full st
  = for_lines (pre ++ post) e full st.
Proof.
  induction pre as [|line pre IH]; intros full st.
  - reflexivity.
  - cbn [app for_lines]. unfold bind.
    destruct (loop_body line full st) as [[[[|] f1]|ex] a0];
      [apply IH | reflexivity | reflexivity].
Qed.

(** C5, at the failing input. A line that is not valid UTF-8 makes
    [line.decode('utf-8')] raise [UnicodeDecodeError], which the loop's
    [except json.JSONDecodeError] does not catch: the stream
    "Hi", <bad line>, " there"+done is aborted by the last handler of
    [get_ollama_response] after "Hi" was shown, and no assistant turn is
    appended, while the same stream without the bad line, or with a line
    that is not JSON in its place, completes with "Hi there". *)
Theorem undecodable_line_aborts_stream :
  let aborted := exec (worker (lit "hello") (ok_response [hi; bad_utf8; there])) asked in
  conversation_history aborted = conversation_history asked /\
  tokens (ui aborted) = [lit "Hi"] /\
  (exists e, failure (ok_response [hi; bad_utf8; there]) = Some (FailAborted e)
             /\ kind e = UnicodeDecodeError) /\
  conversation_history
    (exec (worker (lit "hello") (ok_response [hi; there])) asked)
    = conversation_history asked ++ [mkTurn Assistant (lit "Hi there")] /\
  exec (worker (lit "hello") (ok_response [hi; bad_json; there])) asked
    = exec (worker (lit "hello") (ok_response [hi; there])) asked.
Proof.
  cbn zeta. split; [reflexivity|]. split; [reflexivity|].
  split; [eexists; split; reflexivity|].
  split; reflexivity.
Qed.

(** ** What changes the history *)

Lemma load_available_models_keeps_history o st :
  conversation_history (exec (load_available_models o) st)
  = conversation_history st.
Proof.
  unfold load_available_models. run_monad.
  destruct o as [e|code models].
  - destruct (is_ConnectionError (kind e)); reflexivity.
  - destruct (code =? 200)%Z; [|reflexivity].
    destruct models as [|m ms]; [reflexivity|].
    match goal with
    | |- context [if ?b then _ else _] => destruct b
    end; reflexivity.
Qed.


(** ** [load_available_models] *)

Lemma mem_In x l : mem x l = true <-> In x l.
Proof.
  unfold mem. rewrite existsb_exists. unfold Str.eqb. split.
  - intros (y & I & E). destruct (list_eq_dec N.eq_dec x y); [subst; exact I | discriminate].
  - intro I. exists x. split; [exact I|].
    destruct (list_eq_dec N.eq_dec x x); [reflexivity | contradiction].
Qed.

(** C10. When [/api/tags] answers 200 with a non-empty list of names that
    does not contain [self.model], [load_available_models] sets
    [self.model] to the first name, with no call of [on_model_change];
    besides that it only schedules widget calls, and the history is
    untouched. *)
Theorem missing_model_replaced_by_first (st : App) (models : list str) :
  models <> [] ->
  ~ In (model st) models ->
  let st' := exec (load_available_models (TagsReturns 200 models)) st in
  st' = set_ui (ui st ++ [ModelDropdownConfig models; ModelVarSetFromModel;
                          UpdateStatus (lit "Connected to Ollama")])
          (set_model (hd [] models) st) /\
  Some (model st') = nth_error models 0 /\
  conversation_history st' = conversation_history st.
Proof.
  intros NE NI. cbn zeta.
  assert (M : mem (model st) models = false).
  { destruct (mem (model st) models) eqn:E; [|reflexivity].
    apply mem_In in E. contradiction. }
  destruct models as [|m ms]; [contradiction|].
  assert (E : exec (load_available_models (TagsReturns 200 (m :: ms))) st
              = set_ui (ui st ++ [ModelDropdownConfig (m :: ms);
                                  ModelVarSetFromModel;
                                  UpdateStatus (lit "Connected to Ollama")])
                  (set_model m st)).
  { unfold load_available_models. run_monad. cbn [Z.eqb Pos.eqb].
    unfold set_ui at 1. cbn [model conversation_history input_field running ui].
    rewrite M. cbn. unfold set_ui, set_model. cbn.
    rewrite <- !app_assoc. reflexivity. }
  rewrite E. repeat split.
Qed.

Lemma missing_model_replaced_by_first_witness :
  model idle = lit "llama3.2:latest" /\
  model (exec (load_available_models
                 (TagsReturns 200 [lit "mistral:7b"; lit "phi3:mini"])) idle)
    = lit "mistral:7b".
Proof.
  split; [reflexivity|].
  destruct (missing_model_replaced_by_first idle
              [lit "mistral:7b"; lit "phi3:mini"]) as (_ & H & _).
  - discriminate.
  - intros [H|[H|[]]]; discriminate H.
  - exact (f_equal (fun o => match o with Some x => x | None => [] end) H).
Defined.

(** ** The voice path *)

Ltac run_voice :=
  unfold listen_body, do_listen, do_recognize, do_recalibrate,
    increment_errors, cap_reached, post, set_errors;
  unfold try_except, bind, ret, raise, modify, gets, exec.

(** A pass whose audio was recognised. *)
Lemma listen_body_heard v text :
  exec (listen_body (heard text)) v =
    if Str.truthy text && (0 <? len (strip text)) then
      mkVoice 0 (recalibrations v)
        (posted v ++ [UpdateStatus msg_processing; ProcessVoiceInput text])
    else
      mkVoice (consecutive_errors v) (recalibrations v)
        (posted v ++ [UpdateStatus msg_processing]).
Proof.
  run_voice. cbn [heard listen recognize_google].
  destruct (Str.truthy text && (0 <? len (strip text))); cbn;
    rewrite <- ?app_assoc; reflexivity.
Qed.

Lemma skipn_own_length {A} (l x : list A) : skipn (List.length l) (l ++ x) = x.
Proof. induction l as [|a l IH]; [reflexivity | exact IH]. Qed.

Lemma process_voice_input_short text st :
  len (strip text) < 2 -> process_voice_input text st = (Ok tt, st).
Proof.
  intro H. unfold process_voice_input.
  destruct (Nat.ltb_spec (len (strip text)) 2) as [_|G]; [|lia].
  rewrite orb_true_r. reflexivity.
Qed.

(** With two characters or more left after stripping, [process_voice_input]
    shows what was heard and submits it. *)
Lemma process_voice_input_long text st :
  2 <= len (strip text) ->
  process_voice_input text st =
    (Ok tt,
     exec (submitUserText (strip text))
       (set_ui (ui st ++ [AddMessage User (microphone_sign :: lit " " ++ strip text);
                          UpdateStatus
                            (check_mark :: lit " Voice captured - Sending...")])
          st)).
Proof.
  intro H. unfold process_voice_input.
  destruct (Nat.ltb_spec (len (strip text)) 2) as [G|_]; [lia|].
  assert (T : Str.truthy (strip text) = true)
    by (destruct (strip text); [cbn in H; lia | reflexivity]).
  rewrite T. cbn [negb orb].
  assert (I : Str.truthy (strip (strip text)) = true) by (rewrite strip_idem; exact T).
  unfold submitUserText, input_field_delete, input_field_insert, add_message,
    update_status, call, bind, modify, exec.
  cbn [set_input set_ui model conversation_history input_field running ui].
  rewrite app_nil_r.
  rewrite !send_message_accepts by exact I.
  cbn. rewrite <- !app_assoc. reflexivity.
Qed.

Lemma utterance_calls v text :
  utterance v text =
    if Str.truthy text && (0 <? len (strip text)) then
      run_calls [UpdateStatus msg_processing; ProcessVoiceInput text]
    else run_calls [UpdateStatus msg_processing].
Proof.
  unfold utterance. rewrite listen_body_heard.
  destruct (Str.truthy text && (0 <? len (strip text)));
    cbn [posted]; rewrite skipn_own_length; reflexivity.
Qed.

(** C8. A recognised utterance reaches [send_message] exactly when its
    text, stripped, has two characters or more: then the UI thread shows
    it and submits the stripped text, which is accepted as a user turn
    and starts a request; with one character or none left nothing is
    submitted and nothing is shown beyond the "Processing speech" status
    that every captured audio gets. *)
Theorem recognized_text_forwarded_from_two_chars
    (v : Voice) (text : str) (st : App) :
  let st' := exec (utterance v text) st in
  if 2 <=? len (strip text) then
    let shown :=
      set_ui (ui st ++ [UpdateStatus msg_processing;
                        AddMessage User (microphone_sign :: lit " " ++ strip text);
                        UpdateStatus
                          (check_mark :: lit " Voice captured - Sending...")])
        st in
    st' = exec (submitUserText (strip text)) shown /\
    fst (submitUserText (strip text) shown) = Ok Submitted /\
    conversation_history st'
      = conversation_history st ++ [mkTurn User (strip text)] /\
    running st' = S (running st)
  else
    st' = set_ui (ui st ++ [UpdateStatus msg_processing]) st.
Proof.
  cbn zeta. rewrite utterance_calls.
  destruct (Nat.leb_spec 2 (len (strip text))) as [G|G].
  - assert (T : Str.truthy (strip text) = true)
      by (destruct (strip text); [cbn in G; lia | reflexivity]).
    assert (I : Str.truthy (strip (strip text)) = true)
      by (rewrite strip_idem; exact T).
    assert (C : Str.truthy text && (0 <? len (strip text)) = true).
    { apply andb_true_intro. split.
      - destruct text; [discriminate T | reflexivity].
      - apply Nat.ltb_lt. lia. }
    rewrite C.
    assert (E : exec (run_calls [UpdateStatus msg_processing; ProcessVoiceInput text]) st
                = exec (submitUserText (strip text))
                    (set_ui (ui st ++ [UpdateStatus msg_processing;
                        AddMessage User (microphone_sign :: lit " " ++ strip text);
                        UpdateStatus
                          (check_mark :: lit " Voice captured - Sending...")])
                       st)).
    { unfold run_calls, run_call, call, bind, modify, ret, exec. cbn [fst snd].
      rewrite (process_voice_input_long text _ G). cbn [fst snd].
      unfold set_ui at 2 3.
      cbn [model conversation_history input_field running ui].
      rewrite <- !app_assoc. reflexivity. }
    rewrite E.
    destruct (submitUserText_accepts
                (set_ui (ui st ++ [UpdateStatus msg_processing;
                        AddMessage User (microphone_sign :: lit " " ++ strip text);
                        UpdateStatus
                          (check_mark :: lit " Voice captured - Sending...")])
                       st) (strip text) I) as (R & H & N).
    rewrite strip_idem in H.
    repeat split; [exact R | exact H | exact N].
  - destruct (Str.truthy text && (0 <? len (strip text))) eqn:C.
    + unfold run_calls, run_call, call, bind, modify, ret, exec. cbn [fst snd].
      rewrite (process_voice_input_short text _ G). reflexivity.
    + reflexivity.
Qed.

(** The scenario of the specification: "ok" is submitted, "a" is not. *)
Example voice_ok_is_submitted :
  conversation_history (exec (utterance voice_start (lit "ok")) idle)
  = [mkTurn User (lit "ok")].
Proof. reflexivity. Qed.

Example voice_a_is_dropped :
  exec (utterance voice_start (lit "a")) idle
  = set_ui [UpdateStatus msg_processing] idle.
Proof. reflexivity. Qed.

(** ** The failure counter of the voice loop *)

Ltac voice_cases :=
  repeat (cbn -[Nat.leb firstn lit max_errors];
    match goal with
    | K : kind ?e = _ |- context [kind ?e] => rewrite K
    | |- context [match kind ?e with _ => _ end] => destruct (kind e) eqn:?
    | |- context [if (max_errors <=? ?n) then _ else _] =>
        destruct (Nat.leb_spec max_errors n)
    | |- context [if ?b then _ else _] => destruct b
    end).

(** A pass keeps the counter under the cap when the recalibration it may
    try returns. *)
Lemma listen_body_under_cap a v :
  calm a ->
  consecutive_errors v < max_errors ->
  consecutive_errors (exec (listen_body a) v) < max_errors.
Proof.
  unfold calm. intros C B. destruct a as [l r il adj]. cbn in C. subst adj.
  run_voice. cbn [listen recognize_google is_listening adjust_for_ambient_noise].
  destruct l as [e|]; [|destruct r as [text|e]];
    voice_cases; unfold max_errors in *; cbn; lia.
Qed.

Lemma while_listening_under_cap attempts :
  Forall calm attempts ->
  forall v, consecutive_errors v < max_errors ->
            consecutive_errors (exec (while_listening attempts) v) < max_errors.
Proof.
  induction 1 as [|a rest C _ IH]; intros v B; [exact B|].
  pose proof (listen_body_under_cap a v C B) as B1.
  cbn [while_listening]. unfold bind, exec in *.
  destruct (listen_body a v) as [[[|]|e] v1]; cbn [snd] in *;
    [apply IH; exact B1 | exact B1 | exact B1].
Qed.

(** C7, as stated, fails: the fifth recognition-service error in a row
    resets the counter but does not recalibrate the recognizer. *)
Lemma request_errors_do_not_recalibrate :
  ~ recalibrates_at_cap (mkVoice 4 0 []) request_error.
Proof.
  intro H.
  destruct (H eq_refl (ex_intro _ _ (conj eq_refl eq_refl)) eq_refl) as [R _].
  vm_compute in R. discriminate R.
Qed.

(** A pass that ends in [sr.RequestError]: the exact state it leaves. *)
Lemma request_error_pass a e v :
  listen a = None ->
  recognize_google a = Raised e ->
  kind e = RequestError ->
  exec (listen_body a) v =
    if max_errors <=? consecutive_errors v + 1 then
      mkVoice 0 (recalibrations v)
        (posted v ++ [UpdateStatus msg_processing;
                      UpdateStatus (lit "Speech API error: " ++ prefix 50 (exn_str e));
                      UpdateStatus msg_check_internet])
    else
      mkVoice (consecutive_errors v + 1) (recalibrations v)
        (posted v ++ [UpdateStatus msg_processing;
                      UpdateStatus (lit "Speech API error: " ++ prefix 50 (exn_str e))]).
Proof.
  intros L R K. destruct a as [l r il adj]. cbn in L, R. subst l r.
  run_voice. cbn [listen recognize_google]. rewrite K.
  cbn [consecutive_errors recalibrations posted fst snd].
  destruct (max_errors <=? consecutive_errors v + 1); cbn;
    rewrite <- ?app_assoc; reflexivity.
Qed.

(** A pass that ends in [sr.UnknownValueError]. *)
Lemma unknown_value_pass a e v :
  listen a = None ->
  recognize_google a = Raised e ->
  kind e = UnknownValueError ->
  exec (listen_body a) v =
    if max_errors <=? consecutive_errors v + 1 then
      mkVoice 0 (recalibrations v)
        (posted v ++ [UpdateStatus msg_processing; UpdateStatus msg_louder])
    else
      mkVoice (consecutive_errors v + 1) (recalibrations v)
        (posted v ++ [UpdateStatus msg_processing]).
Proof.
  intros L R K. destruct a as [l r il adj]. cbn in L, R. subst l r.
  run_voice. cbn [listen recognize_google]. rewrite K.
  cbn [consecutive_errors recalibrations posted fst snd].
  destruct (max_errors <=? consecutive_errors v + 1); cbn;
    rewrite <- ?app_assoc; reflexivity.
Qed.

(** A pass whose exception reaches the last handler while the
    application listens, and whose recalibration, if tried, returns. *)
Lemma capture_exception_pass a e v :
  capture_exception a = Some e ->
  is_listening a = true ->
  calm a ->
  exec (listen_body a) v =
    if max_errors <=? consecutive_errors v + 1 then
      mkVoice 0 (S (recalibrations v))
        (posted v ++ heard_status a
           ++ [UpdateStatus (lit "Error: " ++ prefix 40 (exn_str e));
               UpdateStatus msg_recalibrated])
    else
      mkVoice (consecutive_errors v + 1) (recalibrations v)
        (posted v ++ heard_status a
           ++ [UpdateStatus (lit "Error: " ++ prefix 40 (exn_str e))]).
Proof.
  unfold calm, capture_exception, heard_status.
  destruct a as [l r il adj]. cbn [listen recognize_google is_listening
                                   adjust_for_ambient_noise].
  intros C IL A. subst il adj.
  destruct l as [[k m]|]; [|destruct r as [t|[k m]]]; try discriminate C;
    cbn [kind] in C; destruct k; try discriminate C;
    injection C as <-;
    run_voice;
    cbn [listen recognize_google is_listening adjust_for_ambient_noise kind
         exn_str consecutive_errors recalibrations posted fst snd];
    destruct (max_errors <=? consecutive_errors v + 1); cbn;
    rewrite <- ?app_assoc; reflexivity.
Qed.

(** The recalibration happens in one place only. *)
Lemma recalibrated_only_at_cap a v :
  recalibrations (exec (listen_body a) v) = recalibrations v \/
  exists e,
    capture_exception a = Some e /\ is_listening a = true /\ calm a /\
    max_errors <= consecutive_errors v + 1 /\
    recalibrations (exec (listen_body a) v) = S (recalibrations v) /\
    consecutive_errors (exec (listen_body a) v) = 0.
Proof.
  destruct (capture_exception a) as [e|] eqn:C.
  - destruct (is_listening a) eqn:IL.
    + destruct (adjust_for_ambient_noise a) as [x|] eqn:A.
      * left. unfold capture_exception in C.
        destruct a as [l r il adj].
        cbn [listen recognize_google is_listening adjust_for_ambient_noise] in *.
        subst il adj.
        destruct l as [[k m]|]; [|destruct r as [t|[k m]]]; try discriminate C;
          cbn [kind] in C; destruct k; try discriminate C;
          run_voice;
          cbn [listen recognize_google is_listening adjust_for_ambient_noise kind
               exn_str consecutive_errors recalibrations posted fst snd];
          destruct (max_errors <=? consecutive_errors v + 1); reflexivity.
      * rewrite (capture_exception_pass a e v C IL A).
        destruct (Nat.leb_spec max_errors (consecutive_errors v + 1)) as [B|B].
        -- right. exists e. repeat split; assumption.
        -- left. reflexivity.
    + left. unfold capture_exception in C.
      destruct a as [l r il adj].
      cbn [listen recognize_google is_listening adjust_for_ambient_noise] in *.
      subst il.
      destruct l as [[k m]|]; [|destruct r as [t|[k m]]]; try discriminate C;
        cbn [kind] in C; destruct k; try discriminate C; reflexivity.
  - left. unfold capture_exception in C.
    destruct a as [l r il adj].
    cbn [listen recognize_google is_listening adjust_for_ambient_noise] in *.
    destruct l as [[k m]|]; [|destruct r as [t|[k m]]];
      cbn [kind] in C; try destruct k; try discriminate C;
      run_voice;
      cbn [listen recognize_google is_listening adjust_for_ambient_noise kind
           exn_str consecutive_errors recalibrations posted fst snd].
    all: try reflexivity.
    all: try (destruct (max_errors <=? consecutive_errors v + 1); reflexivity).
    destruct (Str.truthy t && (0 <? len (strip t))); reflexivity.
Qed.

(** C7, amended. The counter is below the cap of 5 after every run of the
    loop whose recalibrations, where tried, return. A pass that ends in a
    recognition-service error ([sr.RequestError]) reports the error and
    counts it; when that brings the counter to the cap it also shows the
    "check internet connection" hint and resets the counter to 0, and it
    never recalibrates. A pass that ends in [sr.UnknownValueError] does
    the same with the "speak louder or clearer" hint. The recognizer is
    recalibrated in one case only, when another exception of the capture
    brings the counter to the cap while the application listens; once
    the recalibration has returned the counter is reset to 0 and
    "Recalibrated" is shown, and below the cap such an exception is only
    reported and counted. *)
Theorem voice_counter_reset_at_cap :
  (forall (attempts : list Attempt) (v : Voice),
     Forall calm attempts ->
     consecutive_errors (exec (listen_continuously attempts) v) < max_errors) /\
  (forall (v : Voice) (a : Attempt) (e : Exn),
     listen a = None ->
     recognize_google a = Raised e ->
     kind e = RequestError ->
     exec (listen_body a) v =
       if max_errors <=? consecutive_errors v + 1 then
         mkVoice 0 (recalibrations v)
           (posted v ++ [UpdateStatus msg_processing;
                         UpdateStatus
                           (lit "Speech API error: " ++ prefix 50 (exn_str e));
                         UpdateStatus msg_check_internet])
       else
         mkVoice (consecutive_errors v + 1) (recalibrations v)
           (posted v ++ [UpdateStatus msg_processing;
                         UpdateStatus
                           (lit "Speech API error: " ++ prefix 50 (exn_str e))])) /\
  (forall (v : Voice) (a : Attempt) (e : Exn),
     listen a = None ->
     recognize_google a = Raised e ->
     kind e = UnknownValueError ->
     exec (listen_body a) v =
       if max_errors <=? consecutive_errors v + 1 then
         mkVoice 0 (recalibrations v)
           (posted v ++ [UpdateStatus msg_processing; UpdateStatus msg_louder])
       else
         mkVoice (consecutive_errors v + 1) (recalibrations v)
           (posted v ++ [UpdateStatus msg_processing])) /\
  (forall (v : Voice) (a : Attempt) (e : Exn),
     capture_exception a = Some e ->
     is_listening a = true ->
     calm a ->
     exec (listen_body a) v =
       if max_errors <=? consecutive_errors v + 1 then
         mkVoice 0 (S (recalibrations v))
           (posted v ++ heard_status a
              ++ [UpdateStatus (lit "Error: " ++ prefix 40 (exn_str e));
                  UpdateStatus msg_recalibrated])
       else
         mkVoice (consecutive_errors v + 1) (recalibrations v)
           (posted v ++ heard_status a
              ++ [UpdateStatus (lit "Error: " ++ prefix 40 (exn_str e))])) /\
  (forall (v : Voice) (a : Attempt),
     recalibrations (exec (listen_body a) v) = recalibrations v \/
     exists e,
       capture_exception a = Some e /\ is_listening a = true /\ calm a /\
       max_errors <= consecutive_errors v + 1 /\
       recalibrations (exec (listen_body a) v) = S (recalibrations v) /\
       consecutive_errors (exec (listen_body a) v) = 0).
Proof.
  split; [|split; [|split; [|split]]].
  - intros attempts v C. unfold listen_continuously, bind, modify, exec.
    cbn [fst snd].
    apply (while_listening_under_cap attempts C (set_errors 0 v)).
    unfold max_errors. cbn. lia.
  - intros v a e. apply request_error_pass.
  - intros v a e. apply unknown_value_pass.
  - intros v a e. apply capture_exception_pass.
  - intros v a. apply recalibrated_only_at_cap.
Qed.

Lemma voice_counter_reset_at_cap_witness :
  consecutive_errors
    (exec (listen_continuously (repeat request_error 7)) voice_start) < max_errors /\
  exec (listen_body request_error) (mkVoice 4 0 [])
  = mkVoice 0 0
      [UpdateStatus msg_processing;
       UpdateStatus (lit "Speech API error: recognition connection failed");
       UpdateStatus msg_check_internet] /\
  exec (listen_body unknown_value) (mkVoice 4 0 [])
  = mkVoice 0 0 [UpdateStatus msg_processing; UpdateStatus msg_louder] /\
  exec (listen_body (device_error None)) (mkVoice 4 0 [])
  = mkVoice 0 1 [UpdateStatus (lit "Error: Stream closed");
                 UpdateStatus msg_recalibrated] /\
  exec (listen_body (device_error None)) (mkVoice 2 0 [])
  = mkVoice 3 0 [UpdateStatus (lit "Error: Stream closed")].
Proof.
  destruct voice_counter_reset_at_cap as (A & B & C & D & _).
  split; [|split; [|split; [|split]]].
  - apply (A (repeat request_error 7) voice_start).
    repeat constructor.
  - exact (B (mkVoice 4 0 []) request_error
             (mkExn RequestError (lit "recognition connection failed"))
             eq_refl eq_refl eq_refl).
  - exact (C (mkVoice 4 0 []) unknown_value (mkExn UnknownValueError [])
             eq_refl eq_refl eq_refl).
  - exact (D (mkVoice 4 0 []) (device_error None)
             (mkExn OtherException (lit "Stream closed")) eq_refl eq_refl eq_refl).
  - exact (D (mkVoice 2 0 []) (device_error None)
             (mkExn OtherException (lit "Stream closed")) eq_refl eq_refl eq_refl).
Defined.

(** What the amended claim leaves open: a recalibration that raises is
    swallowed by [except: pass] and the counter is not reset. *)
Example failed_recalibration_keeps_counting :
  consecutive_errors
    (exec (listen_continuously
             (repeat (device_error (Some (mkExn OtherException []))) 7))
       voice_start) = 7.
Proof. reflexivity. Qed.

(** * Beyond the claims *)

(** ** The streaming loop *)

Lemma for_lines_app pre post e : forall full st,
  for_lines (pre ++ post) e full st =
    (r <- scan pre full ;;
     match r with
     | (Continue, full') => for_lines post e full'
     | (Break, full') => ret full'
     end) st.
Proof.
  induction pre as [|line pre IH]; intros full st.
  - reflexivity.
  - cbn [app for_lines scan]. unfold bind in *.
    destruct (loop_body line full st) as [[[[|] f1]|ex] a0];
      [apply IH | reflexivity | reflexivity].
Qed.

(** The pass over a unit of the server's own shape. *)
Lemma loop_body_chunk c done full st :
  loop_body (Json (chunk c done)) full st =
    (Ok (if done then Break else Continue, full ++ c),
     if Str.truthy c then set_ui (ui st ++ [AppendToStreaming c]) st else st).
Proof.
  unfold loop_body, loads_decode, py_get, iadd; run_monad.
  destruct c as [|x c]; destruct done; reflexivity || (cbn; rewrite ?app_nil_r; reflexivity).
Qed.

Lemma set_ui_app u w st : set_ui (ui (set_ui (ui st ++ u) st) ++ w) (set_ui (ui st ++ u) st)
                          = set_ui (ui st ++ u ++ w) st.
Proof. unfold set_ui. cbn. rewrite app_assoc. reflexivity. Qed.

Lemma scan_chunks cs : forall full st,
  scan (map (fun c => Json (chunk c false)) cs) full st =
    (Ok (Continue, full ++ List.concat cs),
     set_ui (ui st ++ map AppendToStreaming (filter Str.truthy cs)) st).
Proof.
  induction cs as [|c cs IH]; intros full st.
  - cbn. rewrite app_nil_r, set_ui_nil. reflexivity.
  - cbn [map scan]. unfold bind. rewrite loop_body_chunk.
    rewrite IH. cbn [List.concat filter]. rewrite app_assoc.
    destruct (Str.truthy c); [|reflexivity].
    cbn [map]. rewrite set_ui_app. reflexivity.
Qed.

Lemma loop_run_chunks_done cs c post e :
  loop_run (map (fun c => Json (chunk c false)) cs ++ Json (chunk c true) :: post) e []
  = (Ok (List.concat cs ++ c),
     map AppendToStreaming (filter Str.truthy (cs ++ [c]))).
Proof.
  unfold loop_run. rewrite for_lines_app. unfold bind. rewrite scan_chunks.
  cbn [for_lines]. unfold bind. rewrite loop_body_chunk. cbn [app].
  rewrite filter_app, map_app. cbn [filter].
  destruct (Str.truthy c); cbn; rewrite ?app_nil_r; reflexivity.
Qed.

Lemma loop_run_chunks_closed cs :
  loop_run (map (fun c => Json (chunk c false)) cs) None []
  = (Ok (List.concat cs), map AppendToStreaming (filter Str.truthy cs)).
Proof.
  unfold loop_run. rewrite <- (app_nil_r (map _ cs)), for_lines_app.
  unfold bind. rewrite scan_chunks. reflexivity.
Qed.

Lemma truthy_nonempty (s : str) : s <> [] -> Str.truthy s = true.
Proof. destruct s; [contradiction | reflexivity]. Qed.

(** X1. A stream of the server's own shape, fragments [cs] with
    ["done": false] and a last unit with ["done": true], is stored as one
    assistant turn holding the fragments joined in order; the non-empty
    fragments are shown one by one, and whatever follows the last unit on
    the wire is ignored. *)
Theorem server_stream_is_joined
    (st : App) (um body : str) (cs : list str) (c : str)
    (post : list WireLine) (e : option Exn) :
  List.concat cs ++ c <> [] ->
  get_ollama_response um
    (PostReturns
       (mkResponse 200 body
          (map (fun c => Json (chunk c false)) cs ++ Json (chunk c true) :: post) e))
    st
  = (Ok tt,
     set_ui (ui st ++ StartStreamingMessage
                  :: map AppendToStreaming (filter Str.truthy (cs ++ [c]))
                  ++ [FinishStreamingMessage; UpdateStatus (lit "Ready")])
       (set_history
          (conversation_history st ++ [mkTurn Assistant (List.concat cs ++ c)]) st)).
Proof.
  intro NE.
  apply get_ollama_response_completed;
    [reflexivity | apply loop_run_chunks_done | apply truthy_nonempty, NE].
Qed.

Lemma server_stream_is_joined_witness :
  conversation_history
    (exec (get_ollama_response (lit "hello")
             (PostReturns
                (mkResponse 200 []
                   (map (fun c => Json (chunk c false)) [lit "Hi"; []; lit ","]
                    ++ Json (chunk (lit " there") true) :: [bad_utf8]) None)))
       asked)
  = [mkTurn User (lit "hello"); mkTurn Assistant (lit "Hi, there")].
Proof.
  unfold exec.
  rewrite (server_stream_is_joined asked (lit "hello") []
             [lit "Hi"; []; lit ","] (lit " there") [bad_utf8] None).
  - reflexivity.
  - discriminate.
Defined.

(** X2. Completion does not need the ["done"] flag: when the server
    closes the stream after fragments that all said ["done": false], the
    text received so far is stored as the assistant turn, as for a
    stream that reported completion. *)
Theorem closed_stream_completes
    (st : App) (um body : str) (cs : list str) :
  List.concat cs <> [] ->
  get_ollama_response um
    (PostReturns
       (mkResponse 200 body (map (fun c => Json (chunk c false)) cs) None))
    st
  = (Ok tt,
     set_ui (ui st ++ StartStreamingMessage
                  :: map AppendToStreaming (filter Str.truthy cs)
                  ++ [FinishStreamingMessage; UpdateStatus (lit "Ready")])
       (set_history
          (conversation_history st ++ [mkTurn Assistant (List.concat cs)]) st)).
Proof.
  intro NE.
  apply get_ollama_response_completed;
    [reflexivity | apply loop_run_chunks_closed | apply truthy_nonempty, NE].
Qed.

Lemma closed_stream_completes_witness :
  conversation_history
    (exec (get_ollama_response (lit "hello")
             (PostReturns
                (mkResponse 200 []
                   (map (fun c => Json (chunk c false)) [lit "Hi"; lit " there"])
                   None)))
       asked)
  = [mkTurn User (lit "hello"); mkTurn Assistant (lit "Hi there")].
Proof.
  unfold exec.
  rewrite (closed_stream_completes asked (lit "hello") [] [lit "Hi"; lit " there"]).
  - reflexivity.
  - discriminate.
Defined.

(** A pass schedules at most one call, and only a non-empty fragment. *)
Lemma loop_body_calls line full :
  Forall is_token (ui (snd (loop_body line full idle))).
Proof.
  destruct line as [|m|m|v|ex]; unfold loop_body, loads_decode, py_get, iadd;
    run_monad; cbn; try constructor.
  2: destruct (kind ex); cbn; constructor.
  repeat (cbn;
    match goal with
    | |- context [match dict_lookup ?m ?k with _ => _ end] =>
        destruct (dict_lookup m k)
    | |- context [match ?x with JNull => _ | _ => _ end] => destruct x
    | |- context [Str.truthy ?s] => is_var s; destruct s
    | |- context [if ?b then _ else _] => destruct b
    end); cbn;
    repeat (apply Forall_cons || apply Forall_nil);
    (eexists; split; [reflexivity | discriminate]).
Qed.

(** X3. Whatever the server sends, the loop over the lines schedules
    nothing but [append_to_streaming] calls, each with a non-empty text:
    an empty fragment is never shown, and the loop itself never reports
    a status or an error. *)
Theorem loop_shows_only_nonempty_fragments
    (ls : list WireLine) (e : option Exn) (full : str) :
  Forall is_token (snd (loop_run ls e full)).
Proof.
  revert full. unfold loop_run.
  induction ls as [|line ls IH]; intro full.
  - destruct e; cbn; constructor.
  - cbn [for_lines]. unfold bind.
    pose proof (loop_body_calls line full) as B.
    destruct (loop_body line full idle) as [[[[|] f1]|ex] a0]; cbn [fst snd] in *.
    + rewrite for_lines_frame. cbn [snd ui set_ui].
      apply Forall_app. split; [exact B|]. unfold loop_run. apply IH.
    + exact B.
    + exact B.
Qed.

Lemma blank_line_skipped pre post e : forall full st,
  for_lines (pre ++ Blank :: post) e full st
  = for_lines (pre ++ post) e full st.
Proof.
  induction pre as [|line pre IH]; intros full st.
  - reflexivity.
  - cbn [app for_lines]. unfold bind.
    destruct (loop_body line full st) as [[[[|] f1]|ex] a0];
      [apply IH | reflexivity | reflexivity].
Qed.

(** The request reads the lines only through the loop. *)
Lemma get_ollama_response_lines um code body e ls1 ls2 st :
  (forall full a, for_lines ls1 e full a = for_lines ls2 e full a) ->
  get_ollama_response um (PostReturns (mkResponse code body ls1 e)) st
  = get_ollama_response um (PostReturns (mkResponse code body ls2 e)) st.
Proof.
  intro H.
  unfold get_ollama_response, requests_post, try_except, bind, ret.
  cbn [status_code lines lines_end].
  destruct (code =? 200)%Z; [|reflexivity].
  destruct (root_after StartStreamingMessage st) as [[u|ex] s1]; [|reflexivity].
  rewrite H. reflexivity.
Qed.

(** X4. An empty line (a keep-alive) and a line that [json.loads]
    rejects may stand anywhere in the response: the request does with and
    without them exactly the same. *)
Theorem empty_and_non_json_lines_are_ignored
    (um body : str) (code : Z) (pre post : list WireLine) (e : option Exn)
    (msg : str) (st : App) :
  get_ollama_response um (PostReturns (mkResponse code body (pre ++ Blank :: post) e)) st
  = get_ollama_response um (PostReturns (mkResponse code body (pre ++ post) e)) st /\
  get_ollama_response um
    (PostReturns (mkResponse code body (pre ++ NotJson msg :: post) e)) st
  = get_ollama_response um (PostReturns (mkResponse code body (pre ++ post) e)) st.
Proof.
  split; apply get_ollama_response_lines; intros full a.
  - apply blank_line_skipped.
  - apply not_json_line_skipped.
Qed.

Lemma quiet_pass v full st :
  quiet v = true -> loop_body (Json v) full st = (Ok (Continue, full), st).
Proof.
  destruct v as [| | | | |items|members]; try discriminate.
  unfold quiet, done_flag. intro Q. apply andb_prop in Q. destruct Q as [Q D].
  apply negb_true_iff in D.
  unfold loop_body, loads_decode, py_get, iadd. run_monad.
  assert (T : truthy (match dict_lookup members (lit "done") with
                      | Some d => d
                      | None => JBool false
                      end) = false)
    by (destruct (dict_lookup members (lit "done")); [exact D | reflexivity]).
  destruct (dict_lookup members (lit "message")) as [m|].
  - destruct m as [| | | | | |inner]; try discriminate.
    destruct (dict_lookup inner (lit "content")) as [c|].
    + apply negb_true_iff in Q. rewrite Q.
      destruct (dict_lookup members (lit "done")) as [d|];
        [cbn in T |- *; rewrite T | cbn]; reflexivity.
    + destruct (dict_lookup members (lit "done")) as [d|];
        [cbn in T |- *; rewrite T | cbn]; reflexivity.
  - destruct (dict_lookup members (lit "done")) as [d|];
      [cbn in T |- *; rewrite T | cbn]; reflexivity.
Qed.

(** X5. Missing keys fall back on the defaults of [.get]: a decoded
    object with no ["message"], or whose message has no ["content"] or an
    empty, null, zero or false one, and with no truthy ["done"], brings
    nothing and stops nothing; the request does the same with and
    without it. *)
Theorem quiet_unit_is_ignored
    (v : json) (um body : str) (code : Z) (pre post : list WireLine)
    (e : option Exn) (st : App) :
  quiet v = true ->
  get_ollama_response um (PostReturns (mkResponse code body (pre ++ Json v :: post) e)) st
  = get_ollama_response um (PostReturns (mkResponse code body (pre ++ post) e)) st.
Proof.
  intro Q. apply get_ollama_response_lines. clear st.
  induction pre as [|line pre IH]; intros full st.
  - cbn [app for_lines]. unfold bind. rewrite (quiet_pass v full st Q). reflexivity.
  - cbn [app for_lines]. unfold bind.
    destruct (loop_body line full st) as [[[[|] f1]|ex] a0];
      [apply IH | reflexivity | reflexivity].
Qed.

Lemma quiet_unit_is_ignored_witness :
  quiet (JObj [(lit "model", JStr (lit "llama3.2:latest"))]) = true /\
  get_ollama_response (lit "hello")
    (ok_response ([hi] ++ Json (JObj [(lit "model", JStr (lit "llama3.2:latest"))])
                       :: [there])) asked
  = get_ollama_response (lit "hello") (ok_response ([hi] ++ [there])) asked.
Proof.
  split; [reflexivity|].
  apply (quiet_unit_is_ignored
           (JObj [(lit "model", JStr (lit "llama3.2:latest"))])
           (lit "hello") [] 200%Z [hi] [there] None asked).
  reflexivity.
Defined.

(** ** How a request ends *)

Lemma report_of_exn o e :
  report o (failure_of_exn e)
  = if is_Timeout (kind e) then msg_timeout
    else if is_ConnectionError (kind e) then msg_unreachable
    else lit "Error: " ++ exn_str e.
Proof.
  unfold failure_of_exn.
  destruct (is_Timeout (kind e)); [reflexivity|].
  destruct (is_ConnectionError (kind e)); reflexivity.
Qed.

Lemma get_ollama_response_raised st um r ex calls :
  status_code r = 200%Z ->
  loop_run (lines r) (lines_end r) [] = (Raised ex, calls) ->
  get_ollama_response um (PostReturns r) st =
    (Ok tt,
     set_ui (ui st ++ (StartStreamingMessage :: calls)
               ++ [UpdateStatus (report (PostReturns r) (failure_of_exn ex));
                   AddMessage System (report (PostReturns r) (failure_of_exn ex))])
       st).
Proof.
  intros H200 L. rewrite report_of_exn. run_request H200.
  rewrite for_lines_frame, L. cbn [fst snd].
  destruct (is_Timeout (kind ex)); [|destruct (is_ConnectionError (kind ex))];
    unfold set_ui; cbn; rewrite <- !app_assoc; reflexivity.
Qed.

(** X6. Every failure is reported twice with one text, on the status
    bar and as a system message in the chat, after whatever was already
    shown of the stream: the fixed texts for a timeout, a refused
    connection and an empty answer, "Error: <status> - <body>" for a
    status other than 200 and "Error: <str(e)>" for anything else. *)
Theorem failure_is_reported
    (st : App) (um : str) (o : PostOutcome) (k : StreamFailed) :
  failure o = Some k ->
  exists shown,
    get_ollama_response um o st =
      (Ok tt,
       set_ui (ui st ++ shown
                 ++ [UpdateStatus (report o k); AddMessage System (report o k)])
         st).
Proof.
  destruct o as [e|r]; cbn [failure].
  - intro F. injection F as <-. exists [].
    rewrite report_of_exn.
    unfold get_ollama_response, requests_post. run_monad.
    destruct (is_Timeout (kind e)); [|destruct (is_ConnectionError (kind e))];
      unfold set_ui; cbn; rewrite <- ?app_assoc; reflexivity.
  - destruct (status_code r =? 200)%Z eqn:H200.
    + apply Z.eqb_eq in H200.
      destruct (loop_run (lines r) (lines_end r) []) as [[full|e] calls] eqn:L;
        cbn [fst snd] in *.
      * destruct full as [|c full]; [|discriminate].
        intro F. injection F as <-. exists (StartStreamingMessage :: calls).
        rewrite (get_ollama_response_empty st um r calls H200 L).
        reflexivity.
      * intro F. injection F as <-. exists (StartStreamingMessage :: calls).
        rewrite (get_ollama_response_raised st um r e calls H200 L).
        reflexivity.
    + intro F. injection F as <-. exists [].
      unfold get_ollama_response, requests_post. run_monad.
      rewrite H200. unfold set_ui; cbn. rewrite <- !app_assoc. reflexivity.
Qed.

Lemma failure_is_reported_witness :
  exists shown,
    get_ollama_response (lit "hello") (PostRaises (mkExn ConnectTimeout [])) asked
    = (Ok tt,
       set_ui (ui asked ++ shown
                 ++ [UpdateStatus msg_timeout; AddMessage System msg_timeout])
         asked).
Proof.
  exact (failure_is_reported asked (lit "hello")
           (PostRaises (mkExn ConnectTimeout [])) FailTimeout eq_refl).
Defined.



Lemma not_a_unit_raises v :
  not_a_unit v = true ->
  exists ex, kind ex = AttributeError /\
             forall full st, loop_body (Json v) full st = (Raised ex, st).
Proof.
  intro N.
  destruct v as [| | | | |items|members];
    try (eexists; split; [|intros full st; reflexivity]; reflexivity).
  unfold not_a_unit in N.
  destruct (dict_lookup members (lit "message")) as [m|] eqn:E; [|discriminate].
  destruct m as [| | | | | |inner]; try discriminate;
    (eexists; split;
     [|intros full st; unfold loop_body, loads_decode, py_get; run_monad;
       rewrite E; reflexivity]; reflexivity).
Qed.

(** X8. A decoded line that is no object, or whose ["message"] is not
    an object, makes [.get] raise [AttributeError]: the request is
    aborted there. The fragments received before it stay on the display,
    but their text is dropped: the report "Error: ..." follows and the
    history gets no assistant turn. *)
Theorem misshapen_unit_aborts
    (v : json) (st : App) (um body : str) (cs : list str)
    (post : list WireLine) (e : option Exn) :
  not_a_unit v = true ->
  exists ex,
    kind ex = AttributeError /\
    get_ollama_response um
      (PostReturns
         (mkResponse 200 body
            (map (fun c => Json (chunk c false)) cs ++ Json v :: post) e)) st
    = (Ok tt,
       set_ui (ui st ++ StartStreamingMessage
                    :: map AppendToStreaming (filter Str.truthy cs)
                    ++ [UpdateStatus (lit "Error: " ++ exn_str ex);
                        AddMessage System (lit "Error: " ++ exn_str ex)])
         st).
Proof.
  intro N. destruct (not_a_unit_raises v N) as (ex & K & R).
  exists ex. split; [exact K|].
  assert (L : loop_run (map (fun c => Json (chunk c false)) cs ++ Json v :: post) e []
              = (Raised ex, map AppendToStreaming (filter Str.truthy cs))).
  { unfold loop_run. rewrite for_lines_app. unfold bind. rewrite scan_chunks.
    cbn [for_lines]. unfold bind. rewrite R. reflexivity. }
  rewrite (get_ollama_response_raised st um
             (mkResponse 200 body
                (map (fun c => Json (chunk c false)) cs ++ Json v :: post) e)
             ex _ eq_refl L).
  rewrite report_of_exn, K. reflexivity.
Qed.

Lemma misshapen_unit_aborts_witness :
  not_a_unit (JObj [(lit "message", JNull)]) = true /\
  conversation_history
    (exec (get_ollama_response (lit "hello")
             (ok_response (map (fun c => Json (chunk c false)) [lit "Hi"]
                           ++ Json (JObj [(lit "message", JNull)]) :: [there])))
       asked)
  = conversation_history asked.
Proof.
  split; [reflexivity|].
  destruct (misshapen_unit_aborts (JObj [(lit "message", JNull)]) asked
              (lit "hello") [] [lit "Hi"] [there] None eq_refl) as (ex & _ & E).
  unfold exec, ok_response. rewrite E. reflexivity.
Defined.

(** ** What a worker and an event may do *)

Lemma failure_none o :
  failure o = None ->
  exists r full calls,
    o = PostReturns r /\ status_code r = 200%Z /\
    loop_run (lines r) (lines_end r) [] = (Ok full, calls) /\
    Str.truthy full = true.
Proof.
  destruct o as [e|r]; cbn [failure]; [discriminate|].
  destruct (status_code r =? 200)%Z eqn:H200; [|discriminate].
  destruct (loop_run (lines r) (lines_end r) []) as [[full|e] calls] eqn:L;
    cbn [fst]; [|discriminate].
  destruct (Str.truthy full) eqn:T; [|discriminate].
  intros _. exists r, full, calls. apply Z.eqb_eq in H200. auto.
Qed.

(** X9. The worker thread never ends with an exception, whatever the
    server does: every failure is caught inside [get_ollama_response]. It
    leaves the model and the input field alone, ends one worker, and
    either leaves the history as it is (exactly when the request failed)
    or appends one assistant turn with a non-empty text (exactly when it
    completed). *)
Theorem worker_always_returns (st : App) (um : str) (o : PostOutcome) :
  let st' := exec (worker um o) st in
  fst (worker um o st) = Ok tt /\
  model st' = model st /\
  input_field st' = input_field st /\
  running st' = Nat.pred (running st) /\
  match failure o with
  | Some _ => conversation_history st' = conversation_history st
  | None =>
      exists full, full <> [] /\
        conversation_history st'
        = conversation_history st ++ [mkTurn Assistant full]
  end.
Proof.
  cbn zeta. destruct (failure o) as [k|] eqn:F.
  - destruct (get_ollama_response_failed st um o k F) as [calls E].
    unfold worker, bind, thread_exit, modify, exec. rewrite E. cbn.
    repeat split.
  - destruct (failure_none o F) as (r & full & calls & -> & H200 & L & T).
    unfold worker, bind, thread_exit, modify, exec.
    rewrite (get_ollama_response_completed st um r full calls H200 L T). cbn.
    repeat split. exists full. split; [|reflexivity].
    intro Z. subst full. discriminate T.
Qed.

(** ** The history over a session *)

Lemma send_message_cases st :
  send_message st =
    if Str.truthy (strip (input_field st)) then
      (Ok Submitted,
       mkApp (model st)
         (conversation_history st ++ [mkTurn User (strip (input_field st))])
         [] (S (running st))
         (ui st ++ [AddMessage User (strip (input_field st))]
                ++ [UpdateStatus (lit "Thinking...")]))
    else (Ok Rejected, st).
Proof.
  destruct (Str.truthy (strip (input_field st))) eqn:T.
  - apply send_message_accepts. exact T.
  - run_monad. rewrite strip_newline, T. reflexivity.
Qed.

Lemma send_message_step st :
  (exists r, fst (send_message st) = Ok r) /\
  grows_by_one (conversation_history st)
    (conversation_history (snd (send_message st))).
Proof.
  rewrite send_message_cases.
  destruct (Str.truthy (strip (input_field st))) eqn:T; cbn.
  - split; [eexists; reflexivity|]. right. eexists. split; [reflexivity|].
    split; cbn.
    + intro Z. rewrite Z in T. discriminate T.
    + apply strip_idem.
  - split; [eexists; reflexivity|]. left. reflexivity.
Qed.

Lemma process_voice_input_step t st :
  fst (process_voice_input t st) = Ok tt /\
  grows_by_one (conversation_history st)
    (conversation_history (snd (process_voice_input t st))).
Proof.
  destruct (Nat.lt_ge_cases (len (strip t)) 2) as [S|L].
  - rewrite (process_voice_input_short t st S). split; [reflexivity|left; reflexivity].
  - rewrite (process_voice_input_long t st L). split; [reflexivity|].
    assert (T : Str.truthy (strip (strip t)) = true).
    { rewrite strip_idem. destruct (strip t); [cbn in L; lia | reflexivity]. }
    cbn [snd].
    destruct (submitUserText_accepts
                (set_ui (ui st ++ [AddMessage User (microphone_sign :: lit " " ++ strip t);
                                   UpdateStatus
                                     (check_mark :: lit " Voice captured - Sending...")])
                   st) (strip t) T) as (_ & H & _).
    right. eexists. split; [exact H|]. split; cbn.
    + intro Z. rewrite Z in T. discriminate T.
    + apply strip_idem.
Qed.

Lemma load_available_models_returns o st :
  fst (load_available_models o st) = Ok tt.
Proof.
  unfold load_available_models. run_monad.
  destruct o as [e|code models].
  - destruct (is_ConnectionError (kind e)); reflexivity.
  - destruct (code =? 200)%Z; [|reflexivity].
    destruct models as [|m ms]; [reflexivity|].
    match goal with
    | |- context [if ?b then _ else _] => destruct b
    end; reflexivity.
Qed.

Lemma worker_step um o st :
  fst (worker um o st) = Ok tt /\
  grows_by_one (conversation_history st)
    (conversation_history (snd (worker um o st))).
Proof.
  destruct (failure o) as [k|] eqn:F.
  - destruct (get_ollama_response_failed st um o k F) as [calls E].
    unfold worker, bind, thread_exit, modify. rewrite E. cbn.
    split; [reflexivity | left; reflexivity].
  - destruct (failure_none o F) as (r & full & calls & -> & H200 & L & T).
    unfold worker, bind, thread_exit, modify.
    rewrite (get_ollama_response_completed st um r full calls H200 L T). cbn.
    split; [reflexivity|]. right. eexists. split; [reflexivity|].
    split; cbn; [|exact I]. intro Z. subst full. discriminate T.
Qed.

Lemma handle_step ev st :
  fst (handle ev st) = Ok tt /\
  grows_by_one (conversation_history st) (conversation_history (snd (handle ev st))).
Proof.
  destruct ev as [[s| |t|um o|o|sel o]|state]; cbn [handle run].
  - split; [reflexivity | left; reflexivity].
  - destruct (send_message_step st) as [[r R] G]. unfold bind, ret.
    destruct (send_message st) as [[x|ex] s1]; cbn in *; [|discriminate R].
    split; [reflexivity | exact G].
  - apply process_voice_input_step.
  - apply worker_step.
  - split; [apply load_available_models_returns|].
    left. apply (load_available_models_keeps_history o st).
  - unfold on_model_change, bind, modify, gets, update_status, call.
    cbn [fst snd].
    split; [apply load_available_models_returns|].
    left. apply (load_available_models_keeps_history o
                   (set_ui (ui st ++ [UpdateStatus (lit "Model changed to: " ++ sel)])
                      (set_model sel st))).
  - unfold on_enter_pressed. destruct (state =? 0)%Z.
    + destruct (send_message_step st) as [[r R] G]. unfold bind, ret.
      destruct (send_message st) as [[x|ex] s1]; cbn in *; [|discriminate R].
      split; [reflexivity | exact G].
    + split; [reflexivity | left; reflexivity].
Qed.

(** X10. No event handler lets an exception escape: whatever the user,
    the server and the voice thread do, in whatever order, every handler
    of the session returns normally. *)
Theorem session_never_raises (evs : list Event) (st : App) :
  fst (session evs st) = Ok tt.
Proof.
  revert st. induction evs as [|ev evs IH]; intro st; [reflexivity|].
  cbn [session]. unfold bind.
  destruct (handle_step ev st) as [R _].
  destruct (handle ev st) as [[u|ex] s1]; cbn in R; [apply IH | discriminate R].
Qed.

(** X11. The history is append-only and never holds an empty message:
    over any session, the history at the end is the history at the start
    followed by at most one new turn per event, and every new turn is a
    user turn with a stripped, non-empty text or an assistant turn with a
    non-empty text; no system message ever enters it. *)
Theorem session_extends_history (evs : list Event) (st : App) :
  exists added,
    conversation_history (exec (session evs) st)
    = conversation_history st ++ added /\
    List.length added <= List.length evs /\
    Forall well_formed added.
Proof.
  revert st. induction evs as [|ev evs IH]; intro st.
  - exists []. cbn. rewrite app_nil_r. repeat split; [lia | constructor].
  - cbn [session]. unfold bind, exec.
    destruct (handle_step ev st) as [R G].
    destruct (handle ev st) as [[u|ex] s1]; cbn in R, G; [|discriminate R].
    destruct (IH s1) as (added & H & L & W). unfold exec in H. rewrite H.
    destruct G as [G|(t & G & Wt)]; rewrite G.
    + exists added. repeat split; [cbn; lia | exact W].
    + exists (t :: added). rewrite <- app_assoc. repeat split;
        [cbn; lia | constructor; assumption].
Qed.

(** ** The model list *)

Lemma load_available_models_model o st :
  model (exec (load_available_models o) st) =
    match o with
    | TagsReturns code models =>
        if (code =? 200)%Z && negb (mem (model st) models)
        then hd (model st) models else model st
    | TagsRaises _ => model st
    end.
Proof.
  unfold load_available_models. run_monad.
  destruct o as [e|code models].
  - destruct (is_ConnectionError (kind e)); reflexivity.
  - destruct (code =? 200)%Z; [|reflexivity].
    destruct models as [|m ms]; [reflexivity|].
    cbn [andb model set_ui snd fst].
    destruct (negb (mem (model st) (m :: ms))); reflexivity.
Qed.

Lemma load_available_models_frame o st :
  input_field (exec (load_available_models o) st) = input_field st /\
  running (exec (load_available_models o) st) = running st.
Proof.
  unfold load_available_models. run_monad.
  destruct o as [e|code models].
  - destruct (is_ConnectionError (kind e)); split; reflexivity.
  - destruct (code =? 200)%Z; [|split; reflexivity].
    destruct models as [|m ms]; [split; reflexivity|].
    match goal with
    | |- context [if ?b then _ else _] => destruct b
    end; split; reflexivity.
Qed.

Lemma eqb_same (s : str) : Str.eqb s s = true.
Proof.
  unfold Str.eqb. destruct (list_eq_dec N.eq_dec s s); [reflexivity | contradiction].
Qed.

Lemma mem_false_not_In x l : mem x l = false -> ~ In x l.
Proof. intros H I. apply mem_In in I. rewrite I in H. discriminate H. Qed.

(** X12. After a listing that answered 200 with at least one name, the
    active model is one of the listed names, whatever it was before. *)
Theorem listed_model_after_listing (st : App) (models : list str) :
  models <> [] ->
  In (model (exec (load_available_models (TagsReturns 200 models)) st)) models.
Proof.
  intro NE. rewrite load_available_models_model. cbn [Z.eqb Pos.eqb andb].
  destruct (mem (model st) models) eqn:M; cbn [negb].
  - apply mem_In. exact M.
  - destruct models as [|m ms]; [contradiction | left; reflexivity].
Qed.

Lemma listed_model_after_listing_witness :
  In (model (exec (load_available_models
                     (TagsReturns 200 [lit "mistral:7b"; lit "llama3.2:latest"]))
               idle))
     [lit "mistral:7b"; lit "llama3.2:latest"] /\
  model (exec (load_available_models
                 (TagsReturns 200 [lit "mistral:7b"; lit "llama3.2:latest"]))
           idle)
  = lit "llama3.2:latest".
Proof.
  split; [|reflexivity].
  apply (listed_model_after_listing idle [lit "mistral:7b"; lit "llama3.2:latest"]).
  discriminate.
Defined.

(** X13. [load_available_models] changes the active model in one case
    only: the answer has status 200 and a non-empty list that does not
    hold the active model, and the new model is then the first name. In
    every other case (an exception, another status, an empty list, a list
    that holds the model) the model stays; the input field, the workers
    and the history stay in all cases. *)
Theorem model_changes_only_when_unlisted (o : TagsOutcome) (st : App) :
  let st' := exec (load_available_models o) st in
  (model st' = model st \/
   exists models,
     o = TagsReturns 200 models /\ models <> [] /\ ~ In (model st) models /\
     Some (model st') = nth_error models 0) /\
  input_field st' = input_field st /\
  running st' = running st /\
  conversation_history st' = conversation_history st.
Proof.
  cbn zeta. split.
  - rewrite load_available_models_model.
    destruct o as [e|code models]; [left; reflexivity|].
    destruct (code =? 200)%Z eqn:C; [|left; reflexivity].
    destruct (mem (model st) models) eqn:M; [left; reflexivity|].
    destruct models as [|m ms]; [left; reflexivity|].
    right. exists (m :: ms). apply Z.eqb_eq in C. subst code.
    repeat split; [discriminate | apply mem_false_not_In; exact M].
  - destruct (load_available_models_frame o st) as [I R].
    repeat split; [exact I | exact R | apply load_available_models_keeps_history].
Qed.

(** X14. Listing the models is idempotent on the active model: a second
    listing with the same answer never changes the model the first one
    left. *)
Theorem second_listing_keeps_model (o : TagsOutcome) (st : App) :
  model (exec (load_available_models o) (exec (load_available_models o) st))
  = model (exec (load_available_models o) st).
Proof.
  rewrite (load_available_models_model o (exec (load_available_models o) st)).
  rewrite (load_available_models_model o st).
  destruct o as [e|code models]; [reflexivity|].
  destruct (code =? 200)%Z; [|reflexivity].
  cbn [andb].
  destruct (mem (model st) models) eqn:M; cbn [negb].
  - rewrite M. reflexivity.
  - destruct models as [|m ms]; [reflexivity|].
    cbn [hd mem existsb]. rewrite eqb_same. reflexivity.
Qed.

(** X15. A selection in the drop-down survives the listing that
    [on_model_change] runs exactly when the server lists it or the
    listing gives nothing to choose from: a listed selection is kept; an
    unlisted one is replaced by the first listed name without a word to
    the user beyond "Connected to Ollama"; when the listing fails
    (exception, status other than 200, empty list) the selection is
    kept. *)
Theorem selection_kept_when_listed (sel : str) (o : TagsOutcome) (st : App) :
  let st' := exec (on_model_change sel o) st in
  match o with
  | TagsReturns 200 (m :: ms) =>
      if mem sel (m :: ms) then model st' = sel else model st' = m
  | _ => model st' = sel
  end.
Proof.
  cbn zeta.
  assert (E : exec (on_model_change sel o) st
              = exec (load_available_models o)
                  (set_ui (ui st ++ [UpdateStatus (lit "Model changed to: " ++ sel)])
                     (set_model sel st))) by reflexivity.
  rewrite E, load_available_models_model. cbn [model set_ui set_model].
  destruct o as [e|code models]; [reflexivity|].
  destruct (code =? 200)%Z eqn:C.
  - apply Z.eqb_eq in C. subst code. cbn [andb].
    destruct models as [|m ms]; [reflexivity|].
    destruct (mem sel (m :: ms)); reflexivity.
  - cbn [andb].
    destruct code as [|p|p]; try reflexivity.
    repeat (destruct p as [p|p|]; try reflexivity); discriminate C.
Qed.

(** ** The voice loop *)

Lemma listen_body_returns a v : exists f, fst (listen_body a v) = Ok f.
Proof.
  destruct a as [l r il adj]. run_voice.
  cbn [listen recognize_google is_listening adjust_for_ambient_noise].
  destruct l as [e|]; [|destruct r as [text|e]]; [| |];
    try destruct adj; voice_cases; eexists; reflexivity.
Qed.

(** X16. The voice thread never dies of an exception: whatever the
    microphone and the speech service raise, pass after pass, the loop
    handles it and returns normally when it ends. *)
Theorem voice_loop_never_raises (attempts : list Attempt) (v : Voice) :
  fst (listen_continuously attempts v) = Ok tt.
Proof.
  unfold listen_continuously, bind, modify. cbn [fst snd].
  generalize (set_errors 0 v). clear v.
  induction attempts as [|a rest IH]; intro v; [reflexivity|].
  cbn [while_listening]. unfold bind.
  destruct (listen_body_returns a v) as [f F].
  destruct (listen_body a v) as [[[|]|e] v1]; cbn in F;
    [apply IH | reflexivity | discriminate F].
Qed.

Lemma silent_pass a v : silent a -> listen_body a v = (Ok Continue, v).
Proof.
  intros (e & L & K). destruct a as [l r il adj]. cbn in L. subst l.
  run_voice. cbn [listen]. rewrite K. reflexivity.
Qed.

Lemma stopped_pass a v : stopped a -> listen_body a v = (Ok Break, v).
Proof.
  intros [(e & L & K) IL]. destruct a as [l r il adj]. cbn in L, IL. subst l il.
  run_voice. cbn [listen is_listening].
  destruct (kind e); try reflexivity. contradiction.
Qed.

Lemma while_listening_skip a pre post : 
  (forall v, listen_body a v = (Ok Continue, v)) ->
  forall v, while_listening (pre ++ a :: post) v = while_listening (pre ++ post) v.
Proof.
  intro S. induction pre as [|b pre IH]; intro v.
  - cbn [app while_listening]. unfold bind. rewrite S. reflexivity.
  - cbn [app while_listening]. unfold bind.
    destruct (listen_body b v) as [[[|]|e] v1]; [apply IH | reflexivity | reflexivity].
Qed.

(** X17. Silence costs nothing: a pass that ends in the silence timeout
    of [listen] counts no failure, schedules nothing and does not stop
    the loop; the loop does with and without such passes exactly the
    same. *)
Theorem silent_passes_are_free
    (a : Attempt) (pre post : list Attempt) (v : Voice) :
  silent a ->
  listen_continuously (pre ++ a :: post) v = listen_continuously (pre ++ post) v.
Proof.
  intro S. unfold listen_continuously, bind, modify. cbn [fst snd].
  apply while_listening_skip. intro w. apply silent_pass. exact S.
Qed.

Lemma silent_passes_are_free_witness :
  exec (listen_continuously
          ([request_error]
           ++ mkAttempt (Some (mkExn WaitTimeoutError
                                 (lit "listening timed out while waiting for phrase to start")))
                (Ok []) true None
           :: [request_error])) voice_start
  = exec (listen_continuously ([request_error] ++ [request_error])) voice_start.
Proof.
  unfold exec. rewrite silent_passes_are_free; [reflexivity|].
  eexists. split; reflexivity.
Defined.

(** X18. When the capture fails after the stop command, the loop ends
    at once: the failure is not counted or reported, and no later pass
    runs; the thread leaves the state the earlier passes left. *)
Theorem stop_seen_in_handler_ends_loop
    (a : Attempt) (pre post : list Attempt) (v : Voice) :
  stopped a ->
  listen_continuously (pre ++ a :: post) v = listen_continuously pre v.
Proof.
  intro S. unfold listen_continuously, bind, modify. cbn [fst snd].
  generalize (set_errors 0 v). clear v.
  induction pre as [|b pre IH]; intro v.
  - cbn [app while_listening]. unfold bind. rewrite (stopped_pass a v S). reflexivity.
  - cbn [app while_listening]. unfold bind.
    destruct (listen_body b v) as [[[|]|e] v1]; [apply IH | reflexivity | reflexivity].
Qed.

Lemma stop_seen_in_handler_ends_loop_witness :
  exec (listen_continuously
          ([request_error]
           ++ mkAttempt (Some (mkExn OtherException (lit "Stream closed")))
                (Ok []) false None
           :: [request_error; request_error])) voice_start
  = exec (listen_continuously [request_error]) voice_start.
Proof.
  unfold exec. rewrite stop_seen_in_handler_ends_loop; [reflexivity|].
  split; [eexists; split; [reflexivity | discriminate] | reflexivity].
Defined.

Lemma listen_body_worth a v :
  Forall worth_sending (posted v) ->
  Forall worth_sending (posted (snd (listen_body a v))).
Proof.
  intro H. destruct a as [l r il adj]. run_voice.
  cbn [listen recognize_google is_listening adjust_for_ambient_noise].
  destruct l as [e|]; [|destruct r as [text|e]].
  - destruct adj; voice_cases;
      repeat (apply Forall_app; split); try exact H;
        repeat constructor.
  - destruct (Str.truthy text && (0 <? len (strip text))) eqn:C; cbn;
      repeat (apply Forall_app; split); try exact H; repeat constructor.
    cbn. apply andb_prop in C. destruct C as [_ C].
    apply Nat.ltb_lt in C. destruct (strip text); [cbn in C; lia | reflexivity].
  - destruct adj; voice_cases;
      repeat (apply Forall_app; split); try exact H;
        repeat constructor.
Qed.

(** X19. The voice thread never hands blank text to the UI thread:
    every [process_voice_input] call it schedules carries a text with at
    least one character that is not whitespace. *)
Theorem voice_thread_sends_no_blank_text (attempts : list Attempt) :
  Forall worth_sending
    (posted (exec (listen_continuously attempts) voice_start)).
Proof.
  unfold listen_continuously, bind, modify, exec. cbn [fst snd].
  assert (H : Forall worth_sending (posted (set_errors 0 voice_start)))
    by constructor.
  revert H. generalize (set_errors 0 voice_start).
  induction attempts as [|a rest IH]; intros v H; [exact H|].
  cbn [while_listening]. unfold bind.
  pose proof (listen_body_worth a v H) as W.
  destruct (listen_body a v) as [[[|]|e] v1]; cbn [snd] in *;
    [apply IH; exact W | exact W | exact W].
Qed.






(** ** Voice text on the UI thread *)

(** X21. Voice text of two characters or more takes the place of
    whatever the user had typed: [process_voice_input] clears the input
    field, submits the stripped voice text as the user turn and leaves
    the field empty, so the draft is lost; the text is shown twice, once
    behind the microphone sign and once by [send_message]. Shorter text
    leaves the draft and everything else as it was. *)
Theorem voice_text_replaces_draft (text : str) (st : App) :
  let t := strip text in
  exec (process_voice_input text) st =
    if 2 <=? len t then
      mkApp (model st)
        (conversation_history st ++ [mkTurn User t])
        []
        (S (running st))
        (ui st ++ [AddMessage User (microphone_sign :: lit " " ++ t);
                   UpdateStatus (check_mark :: lit " Voice captured - Sending...");
                   AddMessage User t;
                   UpdateStatus (lit "Thinking...")])
    else st.
Proof.
  cbn zeta. unfold exec.
  destruct (Nat.leb_spec 2 (len (strip text))) as [L|S].
  - rewrite (process_voice_input_long text st L). cbn [snd].
    assert (T : Str.truthy (strip (strip text)) = true).
    { rewrite strip_idem. destruct (strip text); [cbn in L; lia | reflexivity]. }
    unfold submitUserText, bind, modify, exec. cbn [fst snd].
    rewrite send_message_accepts by exact T.
    cbn [snd set_input set_ui model conversation_history input_field running ui].
    rewrite strip_idem, <- !app_assoc. reflexivity.
  - rewrite (process_voice_input_short text st S). reflexivity.
Qed.

(** ** What the user sees *)

Ltac run_screen :=
  unfold Screen.show, Screen.add_message, Screen.start_streaming_message,
    Screen.append_to_streaming, Screen.finish_streaming_message,
    Screen.update_status, Screen.config_state, Screen.insert_end,
    Screen.tag_config;
  unfold bind, ret, modify, exec.

Lemma chat_text_snoc d text tag st tg sb sm :
  Screen.chat_text
    (Screen.mkDisplay (Screen.chat d ++ [Screen.mkSegment text tag]) st tg sb sm)
  = Screen.chat_text d ++ text.
Proof.
  unfold Screen.chat_text. cbn [Screen.chat].
  rewrite map_app, concat_app. cbn. rewrite app_nil_r. reflexivity.
Qed.

(** A fragment on the screen: appended after what is there, whatever
    state the widget was left in. *)
Lemma append_to_streaming_shown content d :
  let d' := exec (Screen.append_to_streaming content) d in
  Screen.chat_text d' = Screen.chat_text d ++ content /\
  Screen.chat_state d' = Screen.DISABLED /\
  Screen.status_bar d' = Screen.status_bar d /\
  Screen.streaming_message_start d' = Screen.streaming_message_start d.
Proof.
  run_screen. cbn [fst snd Screen.chat_state Screen.chat Screen.tags
                   Screen.status_bar Screen.streaming_message_start].
  destruct content as [|c content].
  - cbn. unfold Screen.chat_text. cbn. rewrite app_nil_r. repeat split.
  - cbn [Screen.chat_state Screen.chat Screen.tags
         Screen.status_bar Screen.streaming_message_start].
    rewrite chat_text_snoc. repeat split.
Qed.

Lemma show_tokens ts : forall timed d,
  map snd timed = map AppendToStreaming ts ->
  let d' := exec (Screen.show_all timed) d in
  Screen.chat_text d' = Screen.chat_text d ++ List.concat ts /\
  (ts <> [] -> Screen.chat_state d' = Screen.DISABLED) /\
  Screen.status_bar d' = Screen.status_bar d /\
  Screen.streaming_message_start d' = Screen.streaming_message_start d.
Proof.
  induction ts as [|t ts IH]; intros timed d H.
  - destruct timed; [|discriminate H]. cbn. rewrite app_nil_r.
    repeat split. intro Z; contradiction.
  - destruct timed as [|[now c] timed]; [discriminate H|].
    cbn [map snd] in H. injection H as -> H.
    cbn zeta. cbn [Screen.show_all Screen.show]. unfold bind, exec.
    destruct (append_to_streaming_shown t d) as (A & B & C & D).
    unfold exec in A, B, C, D.
    destruct (Screen.append_to_streaming t d) as [[u|ex] d1] eqn:E.
    + cbn [snd] in *. destruct (IH timed d1 H) as (A' & B' & C' & D').
      unfold exec in *. rewrite A', C', D', A, C, D.
      cbn [List.concat]. rewrite app_assoc. repeat split.
      intros _. destruct ts as [|t' ts].
      * destruct timed; [exact B | discriminate H].
      * apply B'. discriminate.
    + exfalso. revert E. run_screen. discriminate.
Qed.

(** The calls the loop schedules are exactly their fragments. *)
Lemma loop_run_only_tokens ls e : forall full,
  snd (loop_run ls e full)
  = map AppendToStreaming (tokens (snd (loop_run ls e full))).
Proof.
  induction ls as [|line ls IH]; intro full.
  - unfold loop_run. destruct e; reflexivity.
  - unfold loop_run. cbn [for_lines]. unfold bind.
    pose proof (loop_body_calls line full) as B.
    assert (T : ui (snd (loop_body line full idle))
                = map AppendToStreaming (tokens (ui (snd (loop_body line full idle))))).
    { induction B as [|c cs (t & -> & _) _ IHB]; [reflexivity|].
      cbn. rewrite <- IHB. reflexivity. }
    destruct (loop_body line full idle) as [[[[|] f1]|ex] a0]; cbn [fst snd] in *.
    + rewrite for_lines_frame. cbn [snd ui set_ui].
      rewrite tokens_app, map_app, <- T, <- (IH f1). reflexivity.
    + exact T.
    + exact T.
Qed.

Lemma show_returns now c d : fst (Screen.show now c d) = Ok tt.
Proof.
  destruct c as [s m| | | | | | | |]; try reflexivity.
  destruct s; reflexivity.
Qed.

Lemma show_all_app a : forall b d,
  exec (Screen.show_all (a ++ b)) d
  = exec (Screen.show_all b) (exec (Screen.show_all a) d).
Proof.
  induction a as [|[now c] a IH]; intros b d; [reflexivity|].
  cbn [app Screen.show_all]. unfold bind, exec in *.
  pose proof (show_returns now c d) as R.
  destruct (Screen.show now c d) as [[u|ex] d1]; cbn in R; [apply IH | discriminate R].
Qed.

Lemma start_streaming_message_shown now d :
  let d' := exec (Screen.start_streaming_message now) d in
  let header := Screen.robot :: lit " Assistant [" ++ now ++ lit "]" ++ [newline] in
  Screen.chat_text d' = Screen.chat_text d ++ header /\
  Screen.streaming_message_start d' = Some (List.length (Screen.chat_text d ++ header)) /\
  Screen.status_bar d' = Screen.status_bar d.
Proof.
  run_screen.
  cbn [fst snd Screen.chat_state Screen.chat Screen.tags
       Screen.status_bar Screen.streaming_message_start].
  rewrite !chat_text_snoc. repeat split.
Qed.

Lemma finish_streaming_message_shown d :
  let d' := exec Screen.finish_streaming_message d in
  Screen.chat_text d' = Screen.chat_text d ++ [newline; newline] /\
  Screen.chat_state d' = Screen.DISABLED /\
  Screen.status_bar d' = Screen.status_bar d /\
  Screen.streaming_message_start d' = Screen.streaming_message_start d.
Proof.
  run_screen.
  cbn [fst snd Screen.chat_state Screen.chat Screen.tags
       Screen.status_bar Screen.streaming_message_start].
  rewrite chat_text_snoc. repeat split.
Qed.

(** X22. What the user reads is what the history keeps: when the calls
    of a completed stream run on the UI thread, the chat display gains
    the line "<robot> Assistant [<time>]", then exactly the text stored
    as the assistant turn, then an empty line; [streaming_message_start]
    points at the first character of that text, the status bar says
    "Ready", and the display is left read-only. This holds whatever the
    display held before and whatever state it was in. *)
Theorem streamed_text_on_screen
    (ls : list WireLine) (e : option Exn) (full : str) (calls : list UiCall)
    (timed : list (str * UiCall)) (t0 tF tR : str) (d : Screen.Display) :
  loop_run ls e [] = (Ok full, calls) ->
  map snd timed = calls ->
  let d' :=
    exec (Screen.show_all
            ((t0, StartStreamingMessage)
               :: timed ++ [(tF, FinishStreamingMessage);
                            (tR, UpdateStatus (lit "Ready"))])) d in
  let header := Screen.robot :: lit " Assistant [" ++ t0 ++ lit "]" ++ [newline] in
  Screen.chat_text d'
    = Screen.chat_text d ++ header ++ full ++ [newline; newline] /\
  (exists start,
     Screen.streaming_message_start d' = Some start /\
     skipn start (Screen.chat_text d') = full ++ [newline; newline]) /\
  Screen.status_bar d' = lit "Ready" /\
  Screen.chat_state d' = Screen.DISABLED.
Proof.
  intros L T. cbn zeta.
  assert (F : full = List.concat (tokens calls))
    by (apply (loop_run_tokens ls e [] full calls L)).
  assert (C : calls = map AppendToStreaming (tokens calls)).
  { pose proof (loop_run_only_tokens ls e []) as O. rewrite L in O. exact O. }
  change ((t0, StartStreamingMessage)
            :: timed ++ [(tF, FinishStreamingMessage); (tR, UpdateStatus (lit "Ready"))])
    with ([(t0, StartStreamingMessage)]
            ++ timed ++ [(tF, FinishStreamingMessage); (tR, UpdateStatus (lit "Ready"))]).
  rewrite !show_all_app.
  change (exec (Screen.show_all [(t0, StartStreamingMessage)]) d)
    with (exec (Screen.start_streaming_message t0) d).
  destruct (start_streaming_message_shown t0 d) as (A1 & S1 & B1).
  set (d1 := exec (Screen.start_streaming_message t0) d) in *.
  rewrite C in T.
  destruct (show_tokens (tokens calls) timed d1 T) as (A2 & _ & B2 & S2).
  set (d2 := exec (Screen.show_all timed) d1) in *.
  change (exec (Screen.show_all
                  [(tF, FinishStreamingMessage); (tR, UpdateStatus (lit "Ready"))]) d2)
    with (exec (Screen.update_status (lit "Ready"))
            (exec Screen.finish_streaming_message d2)).
  destruct (finish_streaming_message_shown d2) as (A3 & D3 & B3 & S3).
  set (d3 := exec Screen.finish_streaming_message d2) in *.
  assert (E : Screen.chat_text d3
              = (Screen.chat_text d
                 ++ Screen.robot :: lit " Assistant [" ++ t0 ++ lit "]" ++ [newline])
                ++ full ++ [newline; newline]).
  { rewrite A3, A2, A1, <- F, <- !app_assoc. reflexivity. }
  change (Screen.chat_text (exec (Screen.update_status (lit "Ready")) d3))
    with (Screen.chat_text d3).
  change (Screen.streaming_message_start (exec (Screen.update_status (lit "Ready")) d3))
    with (Screen.streaming_message_start d3).
  change (Screen.chat_state (exec (Screen.update_status (lit "Ready")) d3))
    with (Screen.chat_state d3).
  split; [rewrite E, <- app_assoc; reflexivity|].
  split; [|split; [reflexivity | exact D3]].
  eexists. split; [rewrite S3, S2; exact S1|].
  rewrite E. apply skipn_own_length.
Qed.

Lemma streamed_text_on_screen_witness :
  Screen.chat_text
    (exec (Screen.show_all
             [(lit "09:41", StartStreamingMessage);
              (lit "09:41", AppendToStreaming (lit "Hi"));
              (lit "09:42", AppendToStreaming (lit " there"));
              (lit "09:42", FinishStreamingMessage);
              (lit "09:42", UpdateStatus (lit "Ready"))])
       (Screen.mkDisplay [] Screen.DISABLED [] [] None))
  = (Screen.robot :: lit " Assistant [09:41]") ++ [newline]
    ++ lit "Hi there" ++ [newline; newline].
Proof.
  destruct (streamed_text_on_screen [hi; there] None (lit "Hi there")
              [AppendToStreaming (lit "Hi"); AppendToStreaming (lit " there")]
              [(lit "09:41", AppendToStreaming (lit "Hi"));
               (lit "09:42", AppendToStreaming (lit " there"))]
              (lit "09:41") (lit "09:42") (lit "09:42")
              (Screen.mkDisplay [] Screen.DISABLED [] [] None)
              eq_refl eq_refl) as (H & _).
  exact H.
Defined.

(** ** Tags are shared *)

Lemma eqb_eq (a b : str) : Str.eqb a b = true -> a = b.
Proof.
  unfold Str.eqb. destruct (list_eq_dec N.eq_dec a b); [trivial | discriminate].
Qed.

Lemma lookup_set_option_same key v o :
  Screen.lookup key (Screen.set_option key v o) = Some v.
Proof.
  induction o as [|[k w] o IH]; cbn.
  - rewrite eqb_same. reflexivity.
  - destruct (Str.eqb k key) eqn:E; cbn.
    + rewrite eqb_same. reflexivity.
    + rewrite E. exact IH.
Qed.

Lemma lookup_set_option_other key key' v o :
  Str.eqb key' key = false ->
  Screen.lookup key (Screen.set_option key' v o) = Screen.lookup key o.
Proof.
  intro N. induction o as [|[k w] o IH]; cbn.
  - rewrite N. reflexivity.
  - destruct (Str.eqb k key') eqn:E; cbn.
    + apply eqb_eq in E. subst k. rewrite N. reflexivity.
    + destruct (Str.eqb k key); [reflexivity | exact IH].
Qed.

Lemma lookup_tag_update_same name new ts :
  exists old, Screen.lookup name (Screen.tag_update name new ts)
              = Some (Screen.configure new old).
Proof.
  induction ts as [|[n o] ts IH]; cbn.
  - rewrite eqb_same. eexists; reflexivity.
  - destruct (Str.eqb n name) eqn:E; cbn; rewrite E; [eexists; reflexivity | exact IH].
Qed.

Lemma lookup_tag_update_other name name' new ts :
  Str.eqb name' name = false ->
  Screen.lookup name (Screen.tag_update name' new ts) = Screen.lookup name ts.
Proof.
  intro N. induction ts as [|[n o] ts IH]; cbn.
  - rewrite N. reflexivity.
  - destruct (Str.eqb n name') eqn:E; cbn.
    + apply eqb_eq in E. subst n. rewrite N. reflexivity.
    + destruct (Str.eqb n name); [reflexivity | exact IH].
Qed.

(** X23. The tag "prefix" is configured anew by every [add_message],
    and a tag's colour holds for all text that carries the tag: after a
    message from [sender], every prefix in the chat, those of the earlier
    messages included, is drawn in the colour of [sender]; the earlier
    text itself stays as it was. *)
Theorem prefixes_take_last_sender_colour
    (now : str) (sender : Role) (message : str) (d : Screen.Display) :
  let d' := exec (Screen.add_message now sender message) d in
  (exists new, Screen.chat d' = Screen.chat d ++ new) /\
  Forall (fun s => Screen.seg_tag s = Some (lit "prefix") ->
                   Screen.foreground d' s
                   = Some (Screen.Colour (Screen.sender_colour sender)))
         (Screen.chat d').
Proof.
  cbn zeta.
  assert (T : Screen.tag_cget (exec (Screen.add_message now sender message) d)
                (lit "prefix") (lit "foreground")
              = Some (Screen.Colour (Screen.sender_colour sender))).
  { assert (G : Screen.tags (exec (Screen.add_message now sender message) d)
                = Screen.tag_update (lit "message")
                    [(lit "foreground", Screen.Colour (lit "#e0e0e0"))]
                    (Screen.tag_update (lit "prefix")
                       [(lit "foreground", Screen.Colour (Screen.sender_colour sender));
                        (lit "font", Screen.Font (lit "SF Mono") 11 [lit "bold"])]
                       (Screen.tags d))).
    { run_screen. destruct sender; cbn [fst snd].
      all: repeat match goal with
             | |- context [match ?x with [] => _ | _ :: _ => _ end] => destruct x
             end; reflexivity. }
    unfold Screen.tag_cget. rewrite G.
    rewrite lookup_tag_update_other by reflexivity.
    destruct (lookup_tag_update_same (lit "prefix")
                [(lit "foreground", Screen.Colour (Screen.sender_colour sender));
                 (lit "font", Screen.Font (lit "SF Mono") 11 [lit "bold"])]
                (Screen.tags d)) as [old ->].
    unfold Screen.configure. cbn [fold_left fst snd].
    rewrite lookup_set_option_other by reflexivity.
    apply lookup_set_option_same. }
  split.
  - run_screen. destruct sender; cbn [fst snd].
    all: repeat match goal with
           | |- context [match ?x with [] => _ | _ :: _ => _ end] => destruct x
           end; cbn; rewrite <- ?app_assoc; eexists; try reflexivity.
    all: rewrite app_nil_r; reflexivity.
  - apply Forall_forall. intros s _ P.
    unfold Screen.foreground. rewrite P. exact T.
Qed.

(** ** The voice button *)

Ltac run_panel :=
  unfold Panel.presses, Panel.toggle_voice_listening, Panel.start_listening,
    Panel.stop_listening, Panel.showwarning, Panel.set_is_listening,
    Panel.voice_button_config, Panel.update_status, Panel.adjust,
    Panel.thread_start;
  unfold try_except, bind, ret, raise, modify, gets, exec.

(** One press of the button, case by case. *)
Lemma toggle_cases o p :
  fst (Panel.toggle_voice_listening o p) = Ok tt /\
  Panel.SPEECH_RECOGNITION_AVAILABLE (snd (Panel.toggle_voice_listening o p))
    = Panel.SPEECH_RECOGNITION_AVAILABLE p /\
  Panel.recognizer (snd (Panel.toggle_voice_listening o p)) = Panel.recognizer p /\
  Panel.microphone (snd (Panel.toggle_voice_listening o p)) = Panel.microphone p /\
  (Panel.lamp_agrees p -> Panel.lamp_agrees (snd (Panel.toggle_voice_listening o p))) /\
  (Panel.is_listening (snd (Panel.toggle_voice_listening o p)) = true ->
   Panel.is_listening p = true \/ Panel.equipped p = true) /\
  Panel.listeners p <= Panel.listeners (snd (Panel.toggle_voice_listening o p)).
Proof.
  destruct p as [av r m l b s w n c]. unfold Panel.lamp_agrees, Panel.equipped.
  run_panel. cbn.
  destruct av, r, m, l, o; cbn; repeat split; auto.
Qed.

(** X24. Without the speech package or a recognizer, pressing the voice
    button only shows the "Voice Not Available" box; with a recognizer
    but no microphone, switching on shows the "Microphone not
    initialized" box. In both cases nothing else changes: the
    application does not start listening, the button keeps its look and
    no thread is started. *)
Theorem unequipped_press_only_warns (o : option Exn) (p : Panel.VoicePanel) :
  Panel.equipped p = false ->
  Panel.is_listening p = false ->
  exists message,
    exec (Panel.toggle_voice_listening o) p
    = Panel.mkPanel (Panel.SPEECH_RECOGNITION_AVAILABLE p) (Panel.recognizer p)
        (Panel.microphone p) false (Panel.voice_button p) (Panel.status p)
        (Panel.warnings p ++ [(lit "Voice Not Available", message)])
        (Panel.listeners p) (Panel.calibrations p).
Proof.
  destruct p as [av r m l b s w n c]. unfold Panel.equipped. cbn.
  intros E L. subst l. run_panel. cbn.
  destruct av, r, m; try discriminate E; cbn; eexists; reflexivity.
Qed.

Lemma unequipped_press_only_warns_witness :
  Panel.is_listening
    (exec (Panel.toggle_voice_listening None) (Panel.fresh true true false)) = false /\
  Panel.listeners
    (exec (Panel.toggle_voice_listening None) (Panel.fresh true true false)) = 0.
Proof.
  destruct (unequipped_press_only_warns None (Panel.fresh true true false)
              eq_refl eq_refl) as [message E].
  rewrite E. split; reflexivity.
Defined.

(** X25. However often the voice button is pressed and whatever the
    microphone does at each recalibration, the button tells the truth
    and listening stays honest: the button shows the red circle exactly
    when [is_listening] is set, and [is_listening] is set only if the
    speech package, the recognizer and the microphone are all there. *)
Theorem button_tells_listening
    (outcomes : list (option Exn)) (available r m : bool) :
  let p := exec (Panel.presses outcomes) (Panel.fresh available r m) in
  fst (Panel.presses outcomes (Panel.fresh available r m)) = Ok tt /\
  Panel.lamp_agrees p /\
  (Panel.is_listening p = true -> available && r && m = true).
Proof.
  cbn zeta.
  assert (G : forall p,
             Panel.lamp_agrees p ->
             (Panel.is_listening p = true -> Panel.equipped p = true) ->
             fst (Panel.presses outcomes p) = Ok tt /\
             Panel.lamp_agrees (exec (Panel.presses outcomes) p) /\
             (Panel.is_listening (exec (Panel.presses outcomes) p) = true ->
              Panel.equipped p = true)).
  { induction outcomes as [|o rest IH]; intros p La Eq.
    - repeat split; assumption.
    - cbn [Panel.presses]. unfold bind, exec.
      destruct (toggle_cases o p) as (R & A1 & A2 & A3 & L1 & E1 & _).
      destruct (Panel.toggle_voice_listening o p) as [[u|ex] p1];
        cbn [fst snd] in *; [|discriminate R].
      assert (Q : Panel.equipped p1 = Panel.equipped p)
        by (unfold Panel.equipped; rewrite A1, A2, A3; reflexivity).
      destruct (IH p1 (L1 La)) as (R' & L' & E').
      + intro T. rewrite Q. destruct (E1 T) as [T'|T']; [exact (Eq T') | exact T'].
      + rewrite Q in E'. repeat split; assumption. }
  apply (G (Panel.fresh available r m)); [reflexivity | discriminate].
Qed.

(** X26. Switching the voice on and off again is no round trip: with
    everything in place and the application not listening, two presses
    leave it not listening, but one [listen_continuously] thread was
    started, the status bar reads "Voice listening stopped" and the
    button comes back in the colours of [stop_listening], not in those it
    had before. *)
Theorem on_and_off_is_not_identity (o1 o2 : option Exn) (p : Panel.VoicePanel) :
  Panel.equipped p = true ->
  Panel.is_listening p = false ->
  let p' := exec (Panel.toggle_voice_listening o1 ;; Panel.toggle_voice_listening o2) p in
  Panel.is_listening p' = false /\
  Panel.listeners p' = S (Panel.listeners p) /\
  Panel.status p' = lit "Voice listening stopped" /\
  Panel.voice_button p'
    = Panel.mkButton [microphone_sign] (lit "#34C759") (lit "#28A745") /\
  Panel.calibrations p'
    = Panel.calibrations p + match o1 with Some _ => 0 | None => 1 end.
Proof.
  destruct p as [av r m l b s w n c]. unfold Panel.equipped. cbn.
  intros E L. subst l. destruct av, r, m; try discriminate E.
  run_panel. destruct o1; cbn; repeat split; lia.
Qed.

Lemma on_and_off_is_not_identity_witness :
  Panel.voice_button
    (exec (Panel.toggle_voice_listening None ;; Panel.toggle_voice_listening None)
       (Panel.fresh true true true))
  <> Panel.voice_button (Panel.fresh true true true) /\
  Panel.listeners
    (exec (Panel.toggle_voice_listening None ;; Panel.toggle_voice_listening None)
       (Panel.fresh true true true)) = 1.
Proof.
  destruct (on_and_off_is_not_identity None None (Panel.fresh true true true)
              eq_refl eq_refl) as (_ & N & _ & B & _).
  split; [rewrite B; discriminate | exact N].
Defined.

(** ** A failed request *)

Lemma in_flight_after_exit n u st :
  inFlight (set_running (Nat.pred n) (set_ui u st)) = (1 <? n).
Proof. destruct n as [|[|n]]; reflexivity. Qed.

(** A failed request ends its worker after the two report calls. *)
Lemma worker_reports st um o k :
  failure o = Some k ->
  exists shown,
    worker um o st =
      (Ok tt,
       set_running (Nat.pred (running st))
         (set_ui (ui st ++ shown
                    ++ [UpdateStatus (report o k); AddMessage System (report o k)])
            st)).
Proof.
  intro F.
  assert (G : exists shown,
             get_ollama_response um o st =
               (Ok tt,
                set_ui (ui st ++ shown
                          ++ [UpdateStatus (report o k);
                              AddMessage System (report o k)]) st)).
  { destruct o as [e|r]; cbn [failure] in F.
    - injection F as <-. exists []. rewrite report_of_exn.
      unfold get_ollama_response, requests_post. run_monad.
      destruct (is_Timeout (kind e)); [|destruct (is_ConnectionError (kind e))];
        unfold set_ui; cbn; rewrite <- ?app_assoc; reflexivity.
    - destruct (status_code r =? 200)%Z eqn:H200.
      + apply Z.eqb_eq in H200.
        destruct (loop_run (lines r) (lines_end r) []) as [[full|e] calls] eqn:L;
          cbn [fst] in F; exists (StartStreamingMessage :: calls).
        * destruct full as [|c full]; [|discriminate F]. injection F as <-.
          rewrite (get_ollama_response_empty st um r calls H200 L). reflexivity.
        * injection F as <-.
          rewrite (get_ollama_response_raised st um r e calls H200 L). reflexivity.
      + injection F as <-. exists [].
        unfold get_ollama_response, requests_post. run_monad.
        rewrite H200. unfold set_ui; cbn. rewrite <- !app_assoc. reflexivity. }
  destruct G as [shown G]. exists shown.
  unfold worker, bind, thread_exit, modify. rewrite G. reflexivity.
Qed.

(** C3, as stated, fails: with two requests outstanding, the timeout of
    one leaves the other running, so a stream is still in flight. *)
Lemma failure_with_two_workers_stays_in_flight :
  ~ failure_resets_in_flight asked_twice (lit "hello")
      (PostRaises (mkExn Timeout [])).
Proof.
  intro H. destruct (H (or_introl eq_refl)) as [I _].
  vm_compute in I. discriminate I.
Qed.

(** C3, amended. A request that fails, with a timeout, a connection
    error, a status other than 200 or in any other way, is reported on
    the status bar and in the chat and ends its worker; nothing else of
    [self] changes: the history, the model and the input field are what
    they were, and the text accumulated so far, a local variable, is kept
    nowhere. The source keeps no in-flight flag: after the failure a
    stream is outstanding exactly when another worker still runs, so
    none is when the failed request was the only one. A request that
    completes appends its assistant turn, and over all that acts on
    [self] the history changes only on a user submission and on a
    completed request. *)
Theorem failed_request_keeps_history :
  (forall (st : App) (um : str) (o : PostOutcome) (k : StreamFailed),
     failure o = Some k ->
     (exists shown,
        exec (worker um o) st
        = set_running (Nat.pred (running st))
            (set_ui (ui st ++ shown
                       ++ [UpdateStatus (report o k);
                           AddMessage System (report o k)]) st)) /\
     conversation_history (exec (worker um o) st) = conversation_history st /\
     inFlight (exec (worker um o) st) = (1 <? running st)) /\
  (forall (st : App) (um : str) (o : PostOutcome),
     failure o = None ->
     exists full,
       full <> [] /\
       conversation_history (exec (worker um o) st)
       = conversation_history st ++ [mkTurn Assistant full]) /\
  (forall (act : Action) (st : App),
     conversation_history (exec (run act) st) <> conversation_history st ->
     is_submission act = true \/
     exists um o, act = WorkerReturns um o /\ failure o = None).
Proof.
  split; [|split].
  - intros st um o k F.
    destruct (worker_reports st um o k F) as [shown E].
    unfold exec. rewrite E. cbn [snd].
    split; [exists shown; reflexivity|].
    split; [reflexivity | apply in_flight_after_exit].
  - intros st um o F.
    destruct (failure_none o F) as (r & full & calls & -> & H200 & L & T).
    unfold worker, bind, thread_exit, modify, exec.
    rewrite (get_ollama_response_completed st um r full calls H200 L T).
    cbn. exists full. split; [|reflexivity].
    intro Z. subst full. discriminate T.
  - intros act st H.
    destruct act as [s| |t|um o|o|sel o]; cbn [is_submission];
      try (left; reflexivity).
    + exfalso. apply H. reflexivity.
    + right. exists um, o. split; [reflexivity|].
      destruct (failure o) as [k|] eqn:F; [|reflexivity].
      exfalso. apply H. cbn [run].
      destruct (worker_reports st um o k F) as [shown E].
      unfold exec. rewrite E. reflexivity.
    + exfalso. apply H. cbn [run]. apply load_available_models_keeps_history.
    + exfalso. apply H. cbn [run].
      change (conversation_history
                (exec (load_available_models o)
                   (set_ui (ui st ++ [UpdateStatus (lit "Model changed to: " ++ sel)])
                      (set_model sel st)))
              = conversation_history st).
      rewrite load_available_models_keeps_history. reflexivity.
Qed.

Lemma failed_request_keeps_history_witness :
  failure (PostRaises (mkExn Timeout [])) = Some FailTimeout /\
  failure (PostRaises (mkExn ConnectionError [])) = Some FailUnreachable /\
  failure (PostReturns (mkResponse 500 (lit "busy") [] None))
    = Some (FailServerError 500) /\
  conversation_history
    (exec (worker (lit "hello") (PostRaises (mkExn Timeout []))) asked)
    = [mkTurn User (lit "hello")] /\
  inFlight (exec (worker (lit "hello") (PostRaises (mkExn Timeout []))) asked)
    = false /\
  inFlight (exec (worker (lit "hello") (PostRaises (mkExn Timeout []))) asked_twice)
    = true /\
  conversation_history
    (exec (worker (lit "hello") (PostRaises (mkExn ConnectionError []))) asked)
    = [mkTurn User (lit "hello")] /\
  conversation_history
    (exec (worker (lit "hello")
             (PostReturns (mkResponse 500 (lit "busy") [] None))) asked)
    = [mkTurn User (lit "hello")].
Proof.
  destruct failed_request_keeps_history as [F _].
  destruct (F asked (lit "hello") (PostRaises (mkExn Timeout [])) FailTimeout
              eq_refl) as (_ & H1 & I1).
  destruct (F asked_twice (lit "hello") (PostRaises (mkExn Timeout [])) FailTimeout
              eq_refl) as (_ & _ & I2).
  destruct (F asked (lit "hello") (PostRaises (mkExn ConnectionError []))
              FailUnreachable eq_refl) as (_ & H2 & _).
  destruct (F asked (lit "hello")
              (PostReturns (mkResponse 500 (lit "busy") [] None))
              (FailServerError 500) eq_refl) as (_ & H3 & _).
  do 3 (split; [reflexivity|]).
  split; [exact H1|]. split; [exact I1|]. split; [exact I2|].
  split; [exact H2 | exact H3].
Defined.
